(** * Verification of the abacus counting service (app.py)

    A shallow embedding of the pure logic of [app.py]: the normalisation of
    the model's counts ([normalize_counts_map]), the defensive JSON parsing
    ([parse_json_safely], [gemini_generate_json]), the geometry of the sprite
    builder ([build_right_only_sprite]) and the temporary-file life cycle of
    the request handler ([api_contar]).

    Conventions.
    - Python [int] is [Z]; Python [float] is IEEE 754 binary64, modelled by
      [SpecFloat.spec_float] with [prec = 53] and [emax = 1024].
    - Python [str] is [string]; a character is an [ascii], read as a code
      point in the range 0..255.  Texts with code points above 255 are outside
      the model.
    - A Python [dict] with string keys is a [gmap string _].
    - An operation that may raise returns a [result]; [try ... except
      Exception] is [try_except]. *)

From Stdlib Require Import ZArith Lia Bool List Ascii String.
From Stdlib Require Import Floats.SpecFloat.
From stdpp Require Import gmap strings.

Local Open Scope string_scope.
Local Open Scope Z_scope.

(** ** Exceptions *)

(** The exceptions the modelled code can meet; [ExternalError] stands for
    what a collaborator raises (Pillow, the file system, the model's API, a
    timeout).  All of them are subclasses of Python's [Exception], so
    [except Exception] catches every one. *)
Inductive exn : Type :=
  | TypeError
  | ValueError
  | OverflowError
  | AttributeError
  | JSONDecodeError
  | ExternalError (msg : string).

Inductive result (A : Type) : Type :=
  | Ok (a : A)
  | Raise (e : exn).
Arguments Ok {A} a.
Arguments Raise {A} e.

#[global] Instance result_ret : MRet result := @Ok.
#[global] Instance result_bind : MBind result := fun A B f r =>
  match r with
  | Ok a => f a
  | Raise e => Raise e
  end.

(** [try: body except Exception: handler] *)
Definition try_except {A : Type} (body : result A) (handler : result A) : result A :=
  match body with
  | Ok a => Ok a
  | Raise _ => handler
  end.

(** ** JSON values as produced by [json.loads] *)

#[local] Set Warnings "-register-all".

Inductive json : Type :=
  | JNull
  | JBool (b : bool)
  | JInt (z : Z)
  | JFloat (f : spec_float)
  | JStr (s : string)
  | JList (l : list json)
  | JDict (m : gmap string json).

Definition is_dict (v : json) : bool :=
  match v with
  | JDict _ => true
  | _ => false
  end.

(** ** binary64 arithmetic *)

Module Float.

Definition prec : Z := 53.
Definition emax : Z := 1024.

Definition mul : spec_float -> spec_float -> spec_float := SFmul prec emax.
Definition sub : spec_float -> spec_float -> spec_float := SFsub prec emax.

(** [float(n)] for an [int]: the nearest binary64, [OverflowError] when the
    integer is too large. *)
Definition of_int (n : Z) : result spec_float :=
  match binary_normalize prec emax n 0 false with
  | S754_infinity _ => Raise OverflowError
  | f => Ok f
  end.

(** A decimal literal [d * 10^e10] with [0 <= d], correctly rounded, as
    Python's parser reads [0.08] or [1e3]. *)
Definition of_decimal (neg : bool) (d : Z) (e10 : Z) : spec_float :=
  match d with
  | Z0 => S754_zero neg
  | Zneg _ => S754_nan
  | Zpos _ =>
      if 0 <=? e10
      then match d * 10 ^ e10 with
           | Zpos p => binary_round prec emax neg p 0
           | _ => S754_nan
           end
      else let '(q, e, l) := SFdiv_core_binary prec emax d 0 (10 ^ (- e10)) 0 in
           binary_round_aux prec emax neg q e l
  end.

(** [int(x)] for a [float]: truncation towards zero; [ValueError] on NaN and
    [OverflowError] on an infinity. *)
Definition trunc_pos (m : positive) (e : Z) : Z :=
  if 0 <=? e then Z.pos m * 2 ^ e else Z.pos m / 2 ^ (- e).

Definition to_int (x : spec_float) : result Z :=
  match x with
  | S754_zero _ => Ok 0
  | S754_nan => Raise ValueError
  | S754_infinity _ => Raise OverflowError
  | S754_finite s m e => Ok (if s then - trunc_pos m e else trunc_pos m e)
  end.

End Float.

(** ** [int(v)] *)

Module PyInt.

Definition code (c : ascii) : Z := Z.of_N (N_of_ascii c).

Definition is_digit (c : ascii) : bool := (48 <=? code c) && (code c <=? 57).

(** White space skipped by [int] around the literal: tab, line feed, vertical
    tab, form feed, carriage return, space, and (in a text that is not pure
    ASCII) next line U+0085 and no-break space U+00A0. *)
Definition is_space (c : ascii) : bool :=
  let n := code c in
  ((9 <=? n) && (n <=? 13)) || (n =? 32) || (n =? 133) || (n =? 160).

(** CPython refuses literals of more than 4300 digits (since 3.11). *)
Definition int_max_str_digits : nat := 4300.

Fixpoint skip_spaces (s : string) : string :=
  match s with
  | String c r => if is_space c then skip_spaces r else s
  | EmptyString => s
  end.

(** Digits with single underscores between them; then only white space.
    [last] tells whether the previous character was a digit. *)
Fixpoint digits (s : string) (acc : Z) (n : nat) (last : bool) : option (Z * nat) :=
  match s with
  | EmptyString => if last then Some (acc, n) else None
  | String c r =>
      if is_digit c then digits r (10 * acc + (code c - 48)) (S n) true
      else if Ascii.eqb c "_" then (if last then digits r acc n false else None)
      else if last then
        match skip_spaces s with
        | EmptyString => Some (acc, n)
        | _ => None
        end
      else None
  end.

Definition unsigned (s : string) : result Z :=
  match digits s 0 0%nat false with
  | Some (v, n) => if (int_max_str_digits <? n)%nat then Raise ValueError else Ok v
  | None => Raise ValueError
  end.

Definition of_str (s : string) : result Z :=
  match skip_spaces s with
  | String "-" r => v ← unsigned r; Ok (- v)
  | String "+" r => unsigned r
  | r => unsigned r
  end.

Definition int (v : json) : result Z :=
  match v with
  | JNull => Raise TypeError
  | JBool b => Ok (if b then 1 else 0)
  | JInt z => Ok z
  | JFloat f => Float.to_int f
  | JStr s => of_str s
  | JList _ => Raise TypeError
  | JDict _ => Raise TypeError
  end.

End PyInt.

(** ** Counts normalisation *)

(** Order of the defects (10 rows, top to bottom). *)
Definition LINES : list string :=
  [ "aerosaculite"; "celulite"; "contusao"; "hematomas"; "hepatite";
    "micoplasmose"; "pericardite"; "peritonite"; "salmonelose"; "tuberculose" ].

(** [raw.get(k, dflt)]: only a dict has the method. *)
Definition dict_get (raw : json) (k : string) (dflt : json) : result json :=
  match raw with
  | JDict m => Ok (default dflt (m !! k))
  | _ => Raise AttributeError
  end.

(** [max(0, min(10, v))] *)
Definition clamp (v : Z) : Z := Z.max 0 (Z.min 10 v).

(** One turn of the loop [for k in LINES] on the accumulator [out]. *)
Definition normalize_step (raw : json) (out : gmap string Z) (k : string)
  : result (gmap string Z) :=
  v ← dict_get raw k (JInt 0);
  v ← try_except (PyInt.int v) (Ok 0);
  Ok (<[k := clamp v]> out).

Fixpoint normalize_loop (raw : json) (ks : list string) (out : gmap string Z)
  : result (gmap string Z) :=
  match ks with
  | [] => Ok out
  | k :: ks => out ← normalize_step raw out k; normalize_loop raw ks out
  end.

Definition normalize_counts_map (raw : json) : result (gmap string Z) :=
  normalize_loop raw LINES ∅.

(** The count the loop stores for label [k]. *)
Definition count_of (m : gmap string json) (k : string) : Z :=
  clamp (match PyInt.int (default (JInt 0) (m !! k)) with
         | Ok v => v
         | Raise _ => 0
         end).

(** A mapping that satisfies the schema, used to exercise the theorems. *)
Definition full_counts : gmap string json :=
  list_to_map (zip LINES (JInt <$> [0; 1; 2; 3; 4; 5; 6; 7; 8; 9])).

(** ** String methods *)

Module Str.

Definition code (c : ascii) : Z := Z.of_N (N_of_ascii c).

(** [str.isspace] on one character of the range 0..255. *)
Definition is_space (c : ascii) : bool :=
  let n := code c in
  ((9 <=? n) && (n <=? 13)) || ((28 <=? n) && (n <=? 32)) || (n =? 133) || (n =? 160).

Fixpoint lstrip (s : string) : string :=
  match s with
  | String c r => if is_space c then lstrip r else s
  | EmptyString => s
  end.

Fixpoint rstrip (s : string) : string :=
  match s with
  | EmptyString => EmptyString
  | String c r =>
      match rstrip r with
      | EmptyString => if is_space c then EmptyString else String c EmptyString
      | r' => String c r'
      end
  end.

(** [s.strip()] *)
Definition strip (s : string) : string := rstrip (lstrip s).

(** [s.replace(old, new)] for a non-empty [old]: left to right, occurrences
    do not overlap.  [skip] counts the characters of a matched occurrence
    that are still to be dropped. *)
Fixpoint replace_from (old new : string) (skip : nat) (s : string) : string :=
  match s with
  | EmptyString => EmptyString
  | String c r =>
      match skip with
      | S k => replace_from old new k r
      | O =>
          if String.prefix old s
          then new ++ replace_from old new (String.length old - 1) r
          else String c (replace_from old new 0 r)
      end
  end.

Definition replace (old new s : string) : string := replace_from old new 0 s.

(** The prefix of [s] that ends at the last occurrence of [c]. *)
Fixpoint upto_last (c : ascii) (s : string) : option string :=
  match s with
  | EmptyString => None
  | String a r =>
      match upto_last c r with
      | Some t => Some (String a t)
      | None => if Ascii.eqb a c then Some (String a EmptyString) else None
      end
  end.

(** [re.search(r"\{[\s\S]*\}", s)]: the match, if any, runs from the first
    opening brace to the last closing brace after it (the star is greedy and
    the class matches every character). *)
Fixpoint search_braces (s : string) : option string :=
  match s with
  | EmptyString => None
  | String c r =>
      if Ascii.eqb c "{" then String c <$> upto_last "}" r else search_braces r
  end.

End Str.

(** ** [json.loads] *)

(** The decoder of Python's [json] module with its default settings: strict
    strings, [NaN], [Infinity] and [-Infinity] accepted, the last of two equal
    keys wins.  A [\u] escape that denotes a character above U+00FF is
    outside the model and is rejected here. *)
Module Json.

Definition dquote : ascii := ascii_of_nat 34.
Definition backslash : ascii := ascii_of_nat 92.

Definition code (c : ascii) : Z := Z.of_N (N_of_ascii c).

Definition is_digit (c : ascii) : bool := (48 <=? code c) && (code c <=? 57).

(** JSON white space: space, tab, line feed, carriage return. *)
Definition is_ws (c : ascii) : bool :=
  let n := code c in (n =? 32) || (n =? 9) || (n =? 10) || (n =? 13).

Fixpoint skip_ws (s : string) : string :=
  match s with
  | String c r => if is_ws c then skip_ws r else s
  | EmptyString => s
  end.

(** The rest of [s] after the prefix [p]. *)
Fixpoint after (p s : string) : option string :=
  match p, s with
  | EmptyString, _ => Some s
  | String a p', String b s' => if Ascii.eqb a b then after p' s' else None
  | String _ _, EmptyString => None
  end.

Definition hex_digit (c : ascii) : option Z :=
  let n := code c in
  if (48 <=? n) && (n <=? 57) then Some (n - 48)
  else if (65 <=? n) && (n <=? 70) then Some (n - 55)
  else if (97 <=? n) && (n <=? 102) then Some (n - 87)
  else None.

Definition hex4 (a b c d : ascii) : option Z :=
  a ← hex_digit a; b ← hex_digit b; c ← hex_digit c; d ← hex_digit d;
  Some (((a * 16 + b) * 16 + c) * 16 + d).

Definition chr (n : Z) : option ascii :=
  if (0 <=? n) && (n <=? 255) then Some (ascii_of_N (Z.to_N n)) else None.

Definition escape (c : ascii) : option ascii :=
  if Ascii.eqb c dquote then Some dquote
  else if Ascii.eqb c backslash then Some backslash
  else if Ascii.eqb c "/" then Some "/"%char
  else if Ascii.eqb c "b" then Some (ascii_of_nat 8)
  else if Ascii.eqb c "f" then Some (ascii_of_nat 12)
  else if Ascii.eqb c "n" then Some (ascii_of_nat 10)
  else if Ascii.eqb c "r" then Some (ascii_of_nat 13)
  else if Ascii.eqb c "t" then Some (ascii_of_nat 9)
  else None.

(** The body of a string, after its opening quote: the decoded string and
    what follows the closing quote. *)
Fixpoint scanstring (s : string) : option (string * string) :=
  match s with
  | EmptyString => None
  | String c r =>
      if Ascii.eqb c dquote then Some (EmptyString, r)
      else if Ascii.eqb c backslash then
        match r with
        | String "u" (String h1 (String h2 (String h3 (String h4 r')))) =>
            n ← hex4 h1 h2 h3 h4; ch ← chr n;
            '(body, rest) ← scanstring r'; Some (String ch body, rest)
        | String e r' =>
            ch ← escape e;
            '(body, rest) ← scanstring r'; Some (String ch body, rest)
        | EmptyString => None
        end
      else if code c <? 32 then None
      else '(body, rest) ← scanstring r; Some (String c body, rest)
  end.

(** A run of decimal digits: its value, its length, and the rest. *)
Fixpoint span_digits (s : string) (acc : Z) (n : nat) : Z * nat * string :=
  match s with
  | String c r =>
      if is_digit c then span_digits r (10 * acc + (code c - 48)) (S n) else (acc, n, s)
  | EmptyString => (acc, n, s)
  end.

(** The integer part: [0] or a digit 1..9 followed by digits. *)
Definition int_part (s : string) : option (Z * nat * string) :=
  match s with
  | String c r =>
      if Ascii.eqb c "0" then Some (0, 1%nat, r)
      else if is_digit c then Some (span_digits s 0 0)
      else None
  | EmptyString => None
  end.

(** An optional fraction [.digits]. *)
Definition frac_part (s : string) : option (Z * nat * string) :=
  match s with
  | String "." r =>
      let '(f, n, rest) := span_digits r 0 0 in
      if (n =? 0)%nat then None else Some (f, n, rest)
  | _ => None
  end.

(** An optional exponent [e], [E] with a sign and digits. *)
Definition exp_part (s : string) : option (Z * string) :=
  match s with
  | String c r =>
      if Ascii.eqb c "e" || Ascii.eqb c "E" then
        let '(neg, r1) :=
          match r with
          | String "-" r1 => (true, r1)
          | String "+" r1 => (false, r1)
          | _ => (false, r)
          end in
        let '(e, n, rest) := span_digits r1 0 0 in
        if (n =? 0)%nat then None else Some (if neg then - e else e, rest)
      else None
  | EmptyString => None
  end.

(** A number: an [int] when it has neither fraction nor exponent, a [float]
    otherwise. *)
Definition number (s : string) : option (json * string) :=
  let '(neg, s1) :=
    match s with
    | String "-" r => (true, r)
    | _ => (false, s)
    end in
  '(i, ni, r1) ← int_part s1;
  let fr := frac_part r1 in
  let r2 := from_option (fun x => snd x) r1 fr in
  let ex := exp_part r2 in
  let r3 := from_option (fun x => snd x) r2 ex in
  match fr, ex with
  | None, None =>
      if (PyInt.int_max_str_digits <? ni)%nat then None
      else Some (JInt (if neg then - i else i), r3)
  | _, _ =>
      let '(f, nf) := from_option (fun x => (fst (fst x), snd (fst x))) (0, 0%nat) fr in
      let e := from_option (fun x => fst x) 0 ex in
      Some (JFloat (Float.of_decimal neg (i * 10 ^ Z.of_nat nf + f) (e - Z.of_nat nf)), r3)
  end.

Definition constant (s : string) : option (json * string) :=
  match after "null" s with
  | Some r => Some (JNull, r)
  | None =>
  match after "true" s with
  | Some r => Some (JBool true, r)
  | None =>
  match after "false" s with
  | Some r => Some (JBool false, r)
  | None =>
  match number s with
  | Some v => Some v
  | None =>
  match after "NaN" s with
  | Some r => Some (JFloat S754_nan, r)
  | None =>
  match after "Infinity" s with
  | Some r => Some (JFloat (S754_infinity false), r)
  | None =>
  match after "-Infinity" s with
  | Some r => Some (JFloat (S754_infinity true), r)
  | None => None
  end end end end end end end.

(** [scan_once] reads one value at the head of [s]; [members] reads the
    members of an object from just after the opening quote of a key;
    [elements] reads the elements of an array from the head of an element.
    [fuel] bounds the chain of calls, which the text's length bounds. *)
Fixpoint scan_once (fuel : nat) (s : string) : option (json * string) :=
  match fuel with
  | O => None
  | S fuel =>
      match s with
      | EmptyString => None
      | String c r =>
          if Ascii.eqb c dquote then
            '(str, rest) ← scanstring r; Some (JStr str, rest)
          else if Ascii.eqb c "{" then
            match skip_ws r with
            | String c1 r1 =>
                if Ascii.eqb c1 "}" then Some (JDict ∅, r1)
                else if Ascii.eqb c1 dquote then members fuel r1 ∅
                else None
            | EmptyString => None
            end
          else if Ascii.eqb c "[" then
            match skip_ws r with
            | String "]" r1 => Some (JList [], r1)
            | r1 => elements fuel r1 []
            end
          else constant s
      end
  end
with members (fuel : nat) (s : string) (acc : gmap string json)
  : option (json * string) :=
  match fuel with
  | O => None
  | S fuel =>
      '(key, r1) ← scanstring s;
      match skip_ws r1 with
      | String ":" r2 =>
          '(v, r3) ← scan_once fuel (skip_ws r2);
          let acc := <[key := v]> acc in
          match skip_ws r3 with
          | String "}" r4 => Some (JDict acc, r4)
          | String "," r4 =>
              match skip_ws r4 with
              | String c5 r5 =>
                  if Ascii.eqb c5 dquote then members fuel r5 acc else None
              | EmptyString => None
              end
          | _ => None
          end
      | _ => None
      end
  end
with elements (fuel : nat) (s : string) (acc : list json)
  : option (json * string) :=
  match fuel with
  | O => None
  | S fuel =>
      '(v, r1) ← scan_once fuel s;
      let acc := (acc ++ [v])%list in
      match skip_ws r1 with
      | String "]" r2 => Some (JList acc, r2)
      | String "," r2 => elements fuel (skip_ws r2) acc
      | _ => None
      end
  end.

(** [json.loads(s)]: one value, white space allowed around it and nothing
    else.  Every failure is a [ValueError] ([JSONDecodeError] is one). *)
Definition loads (s : string) : result json :=
  match scan_once (S (String.length s)) (skip_ws s) with
  | Some (v, rest) =>
      match skip_ws rest with
      | EmptyString => Ok v
      | _ => Raise JSONDecodeError
      end
  | None => Raise JSONDecodeError
  end.

End Json.

(** ** Defensive parsing of the model's reply *)

Definition fence_json : string := "```json".
Definition fence : string := "```".

(** [text] is [None] or a string ([text or ""] turns [None] into [""]). *)
Definition parse_json_safely (text : option string) : result json :=
  let text := Str.strip (default "" text) in
  let text := Str.strip (Str.replace fence "" (Str.replace fence_json "" text)) in
  try_except (Json.loads text)
    (match Str.search_braces text with
     | Some m => try_except (Json.loads m) (Ok (JDict ∅))
     | None => Ok (JDict ∅)
     end).

(** [gemini_generate_json]: [resp] is the outcome of the call to the model
    followed by the read of [resp.text] (an exception, [None], or a text). *)
Definition gemini_generate_json (resp : result (option string)) : result json :=
  t ← resp;
  let text := Str.strip (default "" t) in
  data ← parse_json_safely (Some text);
  Ok (if is_dict data then data else JDict {[ "_raw" := JStr text ]}).

(** The text of the malformed-reply scenario:
    [Here is your answer: ```json {"contagem": {"aerosaculite": 3}} ``` ] *)
Definition dq : string := String Json.dquote EmptyString.

Definition scenario_text : string :=
  "Here is your answer: ```json {" ++ dq ++ "contagem" ++ dq ++ ": {"
    ++ dq ++ "aerosaculite" ++ dq ++ ": 3}} ``` ".

(** The text [parse_json_safely] hands to the decoder. *)
Definition cleaned (text : string) : string :=
  Str.strip (Str.replace fence "" (Str.replace fence_json "" (Str.strip text))).

(** No JSON value can be recovered from [text]: the strict parse fails, and
    the brace-delimited substring is absent or fails to parse too. *)
Definition unparsable (text : string) : Prop :=
  (exists e, Json.loads (cleaned text) = Raise e) /\
  match Str.search_braces (cleaned text) with
  | Some m => exists e, Json.loads m = Raise e
  | None => True
  end.

(** The counts the scenario must yield. *)
Definition scenario_counts : gmap string Z :=
  list_to_map
    [ ("aerosaculite", 3); ("celulite", 0); ("contusao", 0); ("hematomas", 0);
      ("hepatite", 0); ("micoplasmose", 0); ("pericardite", 0);
      ("peritonite", 0); ("salmonelose", 0); ("tuberculose", 0) ].

(** ** Sprite parameters *)

Definition TOP_RATIO : spec_float := Float.of_decimal false 8 (-2).          (* 0.08 *)
Definition BOTTOM_RATIO : spec_float := Float.of_decimal false 8 (-2).       (* 0.08 *)
Definition CENTER_SHIFT_PCT : spec_float := Float.of_decimal false 35 (-3).  (* 0.035 *)
Definition RIGHT_FRACTION : spec_float := Float.of_decimal false 55 (-2).    (* 0.55 *)
Definition RIGHT_ZOOM : spec_float := Float.of_decimal false 16 (-1).        (* 1.6 *)
Definition SPRITE_W : Z := 1000.
Definition SPRITE_H : Z := 130.
Definition LABEL_W : Z := 120.

(** ** Geometry of [build_right_only_sprite] *)

(** The pixel operations of Pillow are not modelled: an image is its size
    [(w, h)] and a crop is the box [(left, upper, right, lower)] asked for. *)
Module Sprite.

Record box : Type := Box { left : Z; upper : Z; right : Z; lower : Z }.

(** [int(n * x)] for an [int] [n] and a [float] [x]. *)
Definition int_mul (n : Z) (x : spec_float) : result Z :=
  f ← Float.of_int n; Float.to_int (Float.mul f x).

(** [1 - BOTTOM_RATIO] *)
Definition one_minus_bottom : result spec_float :=
  one ← Float.of_int 1; Ok (Float.sub one BOTTOM_RATIO).

(** [0.5 - CENTER_SHIFT_PCT] *)
Definition shifted_center : spec_float :=
  Float.sub (Float.of_decimal false 5 (-1)) CENTER_SHIFT_PCT.

(** [top = int(h * TOP_RATIO)] and [bot = int(h * (1 - BOTTOM_RATIO))] *)
Definition trimmed (h : Z) : result (Z * Z) :=
  top ← int_mul h TOP_RATIO;
  x ← one_minus_bottom;
  bot ← int_mul h x;
  Ok (top, bot).

(** The test [bot <= top + 10] of the fallback. *)
Definition degenerate (tb : Z * Z) : bool := snd tb <=? fst tb + 10.

(** [top, bot] after [if bot <= top + 10: top, bot = 0, h] *)
Definition usable_region (h : Z) : result (Z * Z) :=
  tb ← trimmed h;
  Ok (if degenerate tb then (0, h) else tb).

(** [band_h = max(1, usable_h // 10)] *)
Definition band_height (usable_h : Z) : Z := Z.max 1 (usable_h / 10).

(** The box of band [i] of the loop [for i in range(10)]. *)
Definition band_box (w top bot band_h i : Z) : box :=
  let y1 := top + i * band_h in
  let y2 := if i =? 9 then bot else y1 + band_h in
  Box 0 y1 w y2.

(** [center_x], without and with its clamp into [0, w - 1]. *)
Definition center_raw (w : Z) : result Z := int_mul w shifted_center.

Definition center_x (w : Z) : result Z :=
  c ← center_raw w; Ok (Z.max 0 (Z.min (w - 1) c)).

(** [right_x0] before the comparison with the centre. *)
Definition right_raw (w : Z) : result Z :=
  r ← int_mul w RIGHT_FRACTION; Ok (w - r).

(** [right_x0], after [max(0, ...)] and [min(right_x0, center_x)]. *)
Definition right_x0 (w : Z) : result Z :=
  c ← center_x w;
  r ← right_raw w;
  Ok (Z.min (Z.max 0 r) c).

(** The box of [band.crop((right_x0, 0, w, band.height))]. *)
Definition right_box (w band_height : Z) : result box :=
  x0 ← right_x0 w; Ok (Box x0 0 w band_height).

(** One turn of the loop [for i in range(10)] per element of [rows]: the band
    of row [i] in the source image and its right crop inside the band. *)
Fixpoint sprite_loop (w top bot band_h : Z) (rows : list Z)
  : result (list (box * box)) :=
  match rows with
  | [] => Ok []
  | i :: rows =>
      let band := band_box w top bot band_h i in
      right ← right_box w (lower band - upper band);
      rest ← sprite_loop w top bot band_h rows;
      Ok ((band, right) :: rest)
  end.

Record layout : Type := Layout {
  top : Z;
  bot : Z;
  usable_h : Z;
  band_h : Z;
  tiles : list (box * box)
}.

(** [range(10)] *)
Definition rows : list Z := [0; 1; 2; 3; 4; 5; 6; 7; 8; 9].

(** The boxes that [build_right_only_sprite] computes for an image of size
    [(w, h)]. *)
Definition build_right_only_sprite (w h : Z) : result layout :=
  '(top, bot) ← usable_region h;
  let usable_h := bot - top in
  let band_h := band_height usable_h in
  tiles ← sprite_loop w top bot band_h rows;
  Ok (Layout top bot usable_h band_h tiles).

End Sprite.

(** ** The request handler and its temporary files *)

(** The state is the upload folder, as the set of the paths it holds.  A
    computation runs on a folder and leaves a folder, also when it raises. *)
Definition io (A : Type) : Type := gset string -> result A * gset string.

Definition io_ret {A : Type} (a : A) : io A := fun fs => (Ok a, fs).

Definition io_bind {A B : Type} (m : io A) (k : A -> io B) : io B := fun fs =>
  match m fs with
  | (Ok a, fs') => k a fs'
  | (Raise e, fs') => (Raise e, fs')
  end.

(** A pure step, or the outcome of a collaborator that leaves the folder
    alone. *)
Definition io_lift {A : Type} (r : result A) : io A := fun fs => (r, fs).

(** [try: body except Exception as e: handler(e)] *)
Definition io_try {A : Type} (body : io A) (handler : exn -> io A) : io A := fun fs =>
  match body fs with
  | (Ok a, fs') => (Ok a, fs')
  | (Raise e, fs') => handler e fs'
  end.

#[global] Instance io_mret : MRet io := @io_ret.
#[global] Instance io_mbind : MBind io := fun A B k m => io_bind m k.

(** What the outside world does during one request. *)
Record world : Type := World {
  saved_path : string;                (* the path [save_uploaded_file] chooses *)
  open_image : result (Z * Z);        (* [Image.open(path).convert("RGB")]: the size *)
  pillow : Z -> result unit;          (* crop, zoom and enhancement of row [i] *)
  crop_path : Z -> string;            (* the path of the crop of row [i] *)
  sprite_path : string;               (* the path of the sprite *)
  upload_orig : result unit;          (* [genai.upload_file] of the original *)
  upload_sprite : result unit;        (* [genai.upload_file] of the sprite *)
  reply : result (option string);     (* [generate_content] and [resp.text] *)
  remove_fails : string -> bool       (* [os.remove] raises on this path *)
}.

Inductive response : Type :=
  | Resp200 (counts : gmap string Z) (raw_debug : json)
  | Resp400 (error : string)
  | Resp500 (error : exn).

(** [file.save(path)] *)
Definition save (p : string) : io unit := fun fs => (Ok (), {[ p ]} ∪ fs).

(** [os.remove(p)] *)
Definition os_remove (wd : world) (p : string) : io unit := fun fs =>
  if remove_fails wd p || negb (bool_decide (p ∈ fs))
  then (Raise (ExternalError "os.remove"), fs)
  else (Ok (), fs ∖ {[ p ]}).

(** [for p in paths: try: os.remove(p) except Exception: pass] *)
Fixpoint cleanup (wd : world) (paths : list string) : io unit :=
  match paths with
  | [] => io_ret ()
  | p :: paths =>
      io_try (os_remove wd p) (fun _ => io_ret ());; cleanup wd paths
  end.

(** The loop of [build_right_only_sprite] on the folder: row [i] is
    processed by Pillow and its crop is saved. *)
Fixpoint save_crops (wd : world) (rows : list Z) : io (list string) :=
  match rows with
  | [] => io_ret []
  | i :: rows =>
      io_lift (pillow wd i);;
      save (crop_path wd i);;
      rest ← save_crops wd rows;
      io_ret (crop_path wd i :: rest)
  end.

(** [build_right_only_sprite(im)] with its files.  The geometry raises, if
    at all, before the first crop is saved, since it depends on the size
    only. *)
Definition build_sprite_files (wd : world) (w h : Z) : io (string * list string) :=
  io_lift (Sprite.build_right_only_sprite w h);;
  crops ← save_crops wd Sprite.rows;
  save (sprite_path wd);;
  io_ret (sprite_path wd, crops).

(** The body of the [try] of [api_contar]. *)
Definition api_contar_body (wd : world) : io response :=
  save (saved_path wd);;
  size ← io_lift (open_image wd);
  sc ← build_sprite_files wd (fst size) (snd size);
  io_lift (upload_orig wd);;
  io_lift (upload_sprite wd);;
  result ← io_lift (gemini_generate_json (reply wd));
  contagem ← io_lift (dict_get result "contagem" (JDict ∅));
  counts ← io_lift (normalize_counts_map contagem);
  cleanup wd (saved_path wd :: fst sc :: snd sc);;
  io_ret (Resp200 counts result).

(** [api_contar]: [image] is the file name of the form field [image], [None]
    when the field is missing. *)
Definition api_contar (wd : world) (image : option string) : io response :=
  match image with
  | None => io_ret (Resp400 "Nenhuma imagem enviada")
  | Some EmptyString => io_ret (Resp400 "Nenhuma imagem selecionada")
  | Some _ => io_try (api_contar_body wd) (fun e => io_ret (Resp500 e))
  end.

(** The images a request derives: the saved upload, the sprite and the ten
    crops. *)
Definition derived (wd : world) : list string :=
  saved_path wd :: sprite_path wd :: (crop_path wd <$> Sprite.rows).


(** A request on which every collaborator succeeds but the call to the model,
    which times out. *)
Definition crop_name (i : Z) : string :=
  "uploads/right_" ++ String (ascii_of_N (Z.to_N (48 + (i + 1) / 10)))
     (String (ascii_of_N (Z.to_N (48 + (i + 1) mod 10))) "_3f9a1c.jpg").

Definition timeout_world : world := {|
  saved_path := "uploads/1a2b3c4d_abaco.jpg";
  open_image := Ok (1000, 800);
  pillow := fun _ => Ok ();
  crop_path := crop_name;
  sprite_path := "uploads/sprite_right_5e6f7a8b.jpg";
  upload_orig := Ok ();
  upload_sprite := Ok ();
  reply := Raise (ExternalError "504 Deadline Exceeded");
  remove_fails := fun _ => false
|}.

(** The same request when the model answers with a [contagem] that is a
    list. *)
Definition list_reply_world : world := {|
  saved_path := "uploads/1a2b3c4d_abaco.jpg";
  open_image := Ok (1000, 800);
  pillow := fun _ => Ok ();
  crop_path := crop_name;
  sprite_path := "uploads/sprite_right_5e6f7a8b.jpg";
  upload_orig := Ok ();
  upload_sprite := Ok ();
  reply := Ok (Some ("{" ++ dq ++ "contagem" ++ dq ++ ": [3]}"));
  remove_fails := fun _ => false
|}.

(** The same request when the model answers as asked. *)
Definition good_world : world := {|
  saved_path := "uploads/1a2b3c4d_abaco.jpg";
  open_image := Ok (1000, 800);
  pillow := fun _ => Ok ();
  crop_path := crop_name;
  sprite_path := "uploads/sprite_right_5e6f7a8b.jpg";
  upload_orig := Ok ();
  upload_sprite := Ok ();
  reply := Ok (Some scenario_text);
  remove_fails := fun _ => false
|}.

(** ** The sprite canvas *)

(** [Image.new("RGB", (LABEL_W + SPRITE_W, SPRITE_H * 10), ...)] *)
Definition canvas_size : Z * Z := (LABEL_W + SPRITE_W, SPRITE_H * 10).

(** [right.resize((SPRITE_W, SPRITE_H), ...)] *)
Definition tile_size : Z * Z := (SPRITE_W, SPRITE_H).

(** [y_off = i * SPRITE_H] *)
Definition y_off (i : Z) : Z := i * SPRITE_H.

(** The region of the canvas that [sprite.paste(right, (LABEL_W, y_off))]
    covers with the tile of row [i]. *)
Definition paste_box (i : Z) : Sprite.box :=
  Sprite.Box LABEL_W (y_off i) (LABEL_W + fst tile_size) (y_off i + snd tile_size).

(** The position of [draw.text((10, y_off + 8), ...)]. *)
Definition label_pos (i : Z) : Z * Z := (10, y_off i + 8).

(** ** Auxiliary predicates *)

(** The character [a] does not occur in [s]. *)
Fixpoint free_of (a : ascii) (s : string) : bool :=
  match s with
  | EmptyString => true
  | String c r => negb (Ascii.eqb c a) && free_of a r
  end.



(** The same request as [good_world] when the sprite cannot be removed. *)
Definition locked_world : world := {|
  saved_path := "uploads/1a2b3c4d_abaco.jpg";
  open_image := Ok (1000, 800);
  pillow := fun _ => Ok ();
  crop_path := crop_name;
  sprite_path := "uploads/sprite_right_5e6f7a8b.jpg";
  upload_orig := Ok ();
  upload_sprite := Ok ();
  reply := Ok (Some scenario_text);
  remove_fails := fun p => String.eqb p "uploads/sprite_right_5e6f7a8b.jpg"
|}.

(** ** The zoom of a right crop *)

(** The size [(int(right.width * RIGHT_ZOOM), int(right.height * RIGHT_ZOOM))]
    that the crop is resized to, under the guard [if RIGHT_ZOOM != 1.0]. *)
Definition zoom_size (cw ch : Z) : result (Z * Z) :=
  one ← Float.of_int 1;
  if SFeqb RIGHT_ZOOM one then Ok (cw, ch)
  else zw ← Sprite.int_mul cw RIGHT_ZOOM;
       zh ← Sprite.int_mul ch RIGHT_ZOOM;
       Ok (zw, zh).

(** ** Tactics *)

(** Linear arithmetic with divisions by constants. *)
Ltac div_lia := Z.div_mod_to_equations; lia.

(** * Theorems *)

(** ** Counts normalisation *)

Lemma clamp_range v : 0 <= clamp v <= 10.
Proof. unfold clamp. lia. Qed.

Lemma clamp_id v : 0 <= v <= 10 -> clamp v = v.
Proof. unfold clamp. lia. Qed.

Lemma normalize_step_dict m out k :
  normalize_step (JDict m) out k = Ok (<[k := count_of m k]> out).
Proof.
  unfold normalize_step, count_of, dict_get. simpl.
  destruct (PyInt.int (default (JInt 0) (m !! k))); reflexivity.
Qed.

Lemma normalize_loop_dict m ks : forall out,
  exists out', normalize_loop (JDict m) ks out = Ok out' /\
    forall k, out' !! k = if decide (k ∈ ks) then Some (count_of m k) else out !! k.
Proof.
  induction ks as [|a ks IH]; intros out.
  - exists out. split; [reflexivity|]. intros k.
    rewrite decide_False; [done | apply not_elem_of_nil].
  - cbn [normalize_loop]. rewrite normalize_step_dict. simpl.
    destruct (IH (<[a := count_of m a]> out)) as (out' & Hrun & Hlk).
    exists out'. split; [exact Hrun|]. intros k. rewrite Hlk.
    destruct (decide (k ∈ ks)) as [Hin|Hin].
    + rewrite decide_True; [done | set_solver].
    + destruct (decide (k = a)) as [->|Hne].
      * rewrite decide_True; [|set_solver]. by rewrite lookup_insert_eq.
      * rewrite decide_False; [by rewrite lookup_insert_ne|].
        intros [?|?]%elem_of_cons; done.
Qed.

Lemma normalize_counts_map_dict m :
  exists out, normalize_counts_map (JDict m) = Ok out /\
    forall k, out !! k = if decide (k ∈ LINES) then Some (count_of m k) else None.
Proof.
  destruct (normalize_loop_dict m LINES ∅) as (out & Hrun & Hlk).
  exists out. split; [exact Hrun|]. intros k. rewrite Hlk.
  by rewrite lookup_empty.
Qed.

Lemma LINES_NoDup : NoDup LINES.
Proof. apply (bool_decide_unpack _). vm_compute. reflexivity. Qed.

Lemma LINES_length : length LINES = 10%nat.
Proof. reflexivity. Qed.

(** C1: for every input dictionary, [normalize_counts_map] returns a map whose
    keys are exactly the 10 fixed labels and whose values are integers in
    the range 0..10. *)
Theorem normalize_counts_map_schema (m : gmap string json) :
  exists out : gmap string Z,
    normalize_counts_map (JDict m) = Ok out /\
    dom out = list_to_set LINES /\
    size out = 10%nat /\
    map_Forall (fun _ v => 0 <= v <= 10) out.
Proof.
  destruct (normalize_counts_map_dict m) as (out & Hrun & Hlk).
  exists out. split; [exact Hrun|].
  assert (Hdom : dom out = list_to_set LINES).
  { apply set_eq. intros k. rewrite elem_of_dom, elem_of_list_to_set, Hlk.
    destruct (decide (k ∈ LINES)) as [Hin|Hin].
    - split; [done | by eexists].
    - split; [by intros [? ?] | done]. }
  split; [exact Hdom|]. split.
  - rewrite <- size_dom, Hdom, size_list_to_set by apply LINES_NoDup. done.
  - intros k v Hk. rewrite Hlk in Hk.
    destruct (decide (k ∈ LINES)); [|done].
    injection Hk as <-. apply clamp_range.
Qed.

Lemma normalize_counts_map_lookup m k :
  k ∈ LINES ->
  exists out, normalize_counts_map (JDict m) = Ok out /\ out !! k = Some (count_of m k).
Proof.
  intros Hk. destruct (normalize_counts_map_dict m) as (out & Hrun & Hlk).
  exists out. split; [exact Hrun|]. rewrite Hlk. by rewrite decide_True.
Qed.

(** Values on which [int] raises: [None], lists, objects, and strings that
    are not integer literals. *)
Example int_null : PyInt.int JNull = Raise TypeError.
Proof. reflexivity. Qed.

Example int_list l : PyInt.int (JList l) = Raise TypeError.
Proof. reflexivity. Qed.

Example int_dict d : PyInt.int (JDict d) = Raise TypeError.
Proof. reflexivity. Qed.

Example int_str_abc : PyInt.int (JStr "abc") = Raise ValueError.
Proof. reflexivity. Qed.

Example int_str_float : PyInt.int (JStr "3.5") = Raise ValueError.
Proof. reflexivity. Qed.

Example int_str_seven : PyInt.int (JStr "7") = Ok 7.
Proof. reflexivity. Qed.

(** C3 (as stated, refuted): a string is a non-numeric JSON value, yet the
    string ["7"] is coerced by [int] and normalises to 7, not to 0. *)
Lemma normalize_string_not_always_zero :
  ~ (forall (m : gmap string json) (k s : string) (out : gmap string Z),
        k ∈ LINES -> m !! k = Some (JStr s) ->
        normalize_counts_map (JDict m) = Ok out -> out !! k = Some 0).
Proof.
  intros H.
  specialize (H {[ "aerosaculite" := JStr "7" ]} "aerosaculite" "7").
  destruct (normalize_counts_map_lookup {[ "aerosaculite" := JStr "7" ]} "aerosaculite")
    as (out & Hrun & Hlk); [set_solver|].
  specialize (H out). rewrite Hlk in H.
  assert (Hc : Some (count_of {[ "aerosaculite" := JStr "7" ]} "aerosaculite") = Some 0).
  { apply H; [set_solver | by rewrite lookup_singleton_eq | exact Hrun]. }
  vm_compute in Hc. discriminate Hc.
Qed.

(** C3 (amended): -3 normalises to 0, 15 normalises to 10, and every value
    that [int] cannot coerce (it raises) normalises to 0; a string that holds
    an integer literal is coerced and clamped like an integer. *)
Theorem normalize_clamp_boundaries (m : gmap string json) (k : string) (v : json) :
  k ∈ LINES -> m !! k = Some v ->
  exists out : gmap string Z,
    normalize_counts_map (JDict m) = Ok out /\
    (v = JInt (-3) -> out !! k = Some 0) /\
    (v = JInt 15 -> out !! k = Some 10) /\
    (forall e, PyInt.int v = Raise e -> out !! k = Some 0) /\
    (forall s z, v = JStr s -> PyInt.of_str s = Ok z -> out !! k = Some (clamp z)).
Proof.
  intros Hk Hv.
  destruct (normalize_counts_map_lookup m k Hk) as (out & Hrun & Hlk).
  exists out. split; [exact Hrun|]. rewrite Hlk. unfold count_of. rewrite Hv. simpl.
  repeat split.
  - intros ->. reflexivity.
  - intros ->. reflexivity.
  - intros e ->. reflexivity.
  - intros s z -> Hs. simpl. rewrite Hs. reflexivity.
Qed.

Lemma normalize_clamp_boundaries_witness :
  exists out : gmap string Z,
    normalize_counts_map
      (JDict {[ "aerosaculite" := JInt (-3); "celulite" := JInt 15;
                "contusao" := JStr "abc" ]}) = Ok out /\
    out !! "aerosaculite" = Some 0 /\
    out !! "celulite" = Some 10 /\
    out !! "contusao" = Some 0.
Proof.
  set (m := {[ "aerosaculite" := JInt (-3); "celulite" := JInt 15;
               "contusao" := JStr "abc" ]} : gmap string json).
  destruct (normalize_clamp_boundaries m "aerosaculite" (JInt (-3)))
    as (out & Hrun & H3 & _); [set_solver | reflexivity |].
  destruct (normalize_clamp_boundaries m "celulite" (JInt 15))
    as (out2 & Hrun2 & _ & H15 & _); [set_solver | reflexivity |].
  destruct (normalize_clamp_boundaries m "contusao" (JStr "abc"))
    as (out3 & Hrun3 & _ & _ & Hs & _); [set_solver | reflexivity |].
  exists out. split; [exact Hrun|].
  assert (out2 = out) as -> by congruence.
  assert (out3 = out) as -> by congruence.
  split; [by apply H3|]. split; [by apply H15|].
  by apply (Hs ValueError).
Defined.

(** C9: on a mapping that already satisfies the schema (exactly the 10 labels,
    each an integer in 0..10), normalisation returns the same values. *)
Theorem normalize_idempotent (m : gmap string json) :
  dom m = list_to_set LINES ->
  map_Forall (fun _ v => exists z, v = JInt z /\ 0 <= z <= 10) m ->
  exists out : gmap string Z,
    normalize_counts_map (JDict m) = Ok out /\ JInt <$> out = m.
Proof.
  intros Hdom Hval.
  destruct (normalize_counts_map_dict m) as (out & Hrun & Hlk).
  exists out. split; [exact Hrun|].
  apply map_eq. intros k. rewrite lookup_fmap, Hlk.
  destruct (decide (k ∈ LINES)) as [Hin|Hin].
  - assert (Hs : is_Some (m !! k)).
    { apply elem_of_dom. rewrite Hdom. by apply elem_of_list_to_set. }
    destruct Hs as [v Hv]. destruct (Hval k v Hv) as (z & -> & Hz).
    unfold count_of. rewrite Hv. simpl. by rewrite clamp_id.
  - simpl. symmetry. apply not_elem_of_dom. rewrite Hdom.
    by rewrite elem_of_list_to_set.
Qed.

Lemma normalize_idempotent_witness :
  exists out : gmap string Z,
    normalize_counts_map (JDict full_counts) = Ok out /\ JInt <$> out = full_counts.
Proof.
  apply normalize_idempotent.
  - vm_compute. reflexivity.
  - apply map_Forall_to_list. unfold full_counts.
    rewrite map_to_list_to_map by (vm_compute; apply LINES_NoDup).
    simpl. repeat (constructor; [eexists; split; [reflexivity | simpl; lia]|]).
    constructor.
Defined.

(** ** Parsing of the reply *)

Lemma lstrip_head s :
  match Str.lstrip s with
  | String c _ => Str.is_space c = false
  | EmptyString => True
  end.
Proof.
  induction s as [|c r IH]; simpl; [exact I|].
  destruct (Str.is_space c) eqn:E; [exact IH | exact E].
Qed.

Lemma lstrip_fixed s :
  match s with
  | String c _ => Str.is_space c = false
  | EmptyString => True
  end -> Str.lstrip s = s.
Proof. destruct s as [|c r]; simpl; [done|]. by intros ->. Qed.

Lemma rstrip_head s :
  match s with
  | String c _ => Str.is_space c = false
  | EmptyString => True
  end ->
  match Str.rstrip s with
  | String c _ => Str.is_space c = false
  | EmptyString => True
  end.
Proof.
  destruct s as [|c r]; simpl; [done|]. intros Hc.
  destruct (Str.rstrip r); [by rewrite Hc | exact Hc].
Qed.

Lemma rstrip_cons c s :
  Str.rstrip (String c s) =
    match Str.rstrip s with
    | EmptyString => if Str.is_space c then EmptyString else String c EmptyString
    | r' => String c r'
    end.
Proof. reflexivity. Qed.

Lemma rstrip_idemp s : Str.rstrip (Str.rstrip s) = Str.rstrip s.
Proof.
  induction s as [|c r IH]; [done|].
  rewrite rstrip_cons.
  destruct (Str.rstrip r) as [|c' r'] eqn:E.
  - destruct (Str.is_space c) eqn:Ec; [done|].
    rewrite rstrip_cons. simpl. by rewrite Ec.
  - rewrite rstrip_cons, IH. reflexivity.
Qed.

Lemma strip_idemp s : Str.strip (Str.strip s) = Str.strip s.
Proof.
  unfold Str.strip.
  rewrite (lstrip_fixed (Str.rstrip (Str.lstrip s))).
  - apply rstrip_idemp.
  - apply rstrip_head, lstrip_head.
Qed.

Lemma parse_json_safely_cases text :
  parse_json_safely text =
    match Json.loads (cleaned (default "" text)) with
    | Ok v => Ok v
    | Raise _ =>
        match Str.search_braces (cleaned (default "" text)) with
        | Some m => match Json.loads m with
                    | Ok v => Ok v
                    | Raise _ => Ok (JDict ∅)
                    end
        | None => Ok (JDict ∅)
        end
    end.
Proof.
  unfold parse_json_safely, cleaned, try_except.
  destruct (Json.loads _); [reflexivity|].
  destruct (Str.search_braces _); [|reflexivity].
  destruct (Json.loads _); reflexivity.
Qed.


Lemma parse_json_safely_unparsable t :
  unparsable t -> parse_json_safely (Some t) = Ok (JDict ∅).
Proof.
  intros [[e He] Hm]. rewrite parse_json_safely_cases. simpl. rewrite He.
  destruct (Str.search_braces (cleaned t)); [|reflexivity].
  destruct Hm as [e' ->]. reflexivity.
Qed.


Lemma unparsable_broken_braces : unparsable "{oops}".
Proof. split; [by eexists | by eexists]. Qed.

(** C4: on the scenario's text the pipeline strips the fence markers, fails
    the strict parse, extracts the brace-delimited substring and recovers
    [{"aerosaculite": 3}] as the [contagem] object; normalisation then gives
    aerosaculite 3 and 0 for the other nine labels. *)
Theorem scenario_recovers_contagem :
  cleaned scenario_text
    = "Here is your answer:  {" ++ dq ++ "contagem" ++ dq ++ ": {"
        ++ dq ++ "aerosaculite" ++ dq ++ ": 3}}" /\
  Json.loads (cleaned scenario_text) = Raise JSONDecodeError /\
  Str.search_braces (cleaned scenario_text)
    = Some ("{" ++ dq ++ "contagem" ++ dq ++ ": {" ++ dq ++ "aerosaculite" ++ dq ++ ": 3}}") /\
  parse_json_safely (Some scenario_text)
    = Ok (JDict {[ "contagem" := JDict {[ "aerosaculite" := JInt 3 ]} ]}) /\
  exists result contagem,
    gemini_generate_json (Ok (Some scenario_text)) = Ok result /\
    dict_get result "contagem" (JDict ∅) = Ok contagem /\
    contagem = JDict {[ "aerosaculite" := JInt 3 ]} /\
    normalize_counts_map contagem = Ok scenario_counts /\
    scenario_counts !! "aerosaculite" = Some 3 /\
    Forall (fun k => scenario_counts !! k = Some 0) (tail LINES).
Proof.
  split; [vm_compute; reflexivity|].
  split; [vm_compute; reflexivity|].
  split; [vm_compute; reflexivity|].
  split; [vm_compute; reflexivity|].
  exists (JDict {[ "contagem" := JDict {[ "aerosaculite" := JInt 3 ]} ]}).
  exists (JDict {[ "aerosaculite" := JInt 3 ]}).
  split; [vm_compute; reflexivity|].
  split; [vm_compute; reflexivity|].
  split; [reflexivity|].
  split; [vm_compute; reflexivity|].
  split; [vm_compute; reflexivity|].
  repeat constructor.
Qed.




(** C10: [parse_json_safely] returns a value on every input ([None], the
    empty string, any text) and never raises; when no JSON value can be
    recovered the value is the empty dictionary. *)
Theorem parse_json_safely_total (text : option string) :
  (exists v, parse_json_safely text = Ok v) /\
  (unparsable (default "" text) -> parse_json_safely text = Ok (JDict ∅)).
Proof.
  split.
  - rewrite parse_json_safely_cases.
    destruct (Json.loads _); [by eexists|].
    destruct (Str.search_braces _); [|by eexists].
    destruct (Json.loads _); by eexists.
  - intros Hu. destruct text as [t|]; [by apply parse_json_safely_unparsable|].
    apply parse_json_safely_unparsable in Hu. exact Hu.
Qed.

Lemma parse_json_safely_total_witness :
  parse_json_safely None = Ok (JDict ∅) /\
  parse_json_safely (Some "") = Ok (JDict ∅) /\
  parse_json_safely (Some "hello") = Ok (JDict ∅).
Proof.
  split; [|split].
  - apply (proj2 (parse_json_safely_total None)). split; [by eexists | exact I].
  - apply (proj2 (parse_json_safely_total (Some ""))). split; [by eexists | exact I].
  - apply (proj2 (parse_json_safely_total (Some "hello"))). split; [by eexists | exact I].
Defined.

(** ** binary64 rounding *)

Lemma digits2_pos_bounds (p : positive) :
  2 ^ (Z.pos (digits2_pos p) - 1) <= Z.pos p < 2 ^ Z.pos (digits2_pos p).
Proof.
  induction p as [p IH|p IH|]; cbn [digits2_pos].
  - rewrite Pos2Z.inj_succ.
    replace (Z.succ (Z.pos (digits2_pos p)) - 1) with (Z.succ (Z.pos (digits2_pos p) - 1)) by lia.
    rewrite !Z.pow_succ_r by lia. lia.
  - rewrite Pos2Z.inj_succ.
    replace (Z.succ (Z.pos (digits2_pos p)) - 1) with (Z.succ (Z.pos (digits2_pos p) - 1)) by lia.
    rewrite !Z.pow_succ_r by lia. lia.
  - simpl. lia.
Qed.

Lemma digits2_pos_unique (p : positive) (k : Z) :
  2 ^ (k - 1) <= Z.pos p < 2 ^ k -> Z.pos (digits2_pos p) = k.
Proof.
  intros [Hlo Hhi]. pose proof (digits2_pos_bounds p) as [Dlo Dhi].
  assert (0 < k).
  { destruct (Z.lt_ge_cases 0 k) as [|Hk]; [done|].
    assert (2 ^ k <= 2 ^ 0) by (apply Z.pow_le_mono_r; lia). simpl in *. lia. }
  assert (k - 1 < Z.pos (digits2_pos p)).
  { apply (Z.pow_lt_mono_r_iff 2); lia. }
  assert (Z.pos (digits2_pos p) - 1 < k).
  { apply (Z.pow_lt_mono_r_iff 2); lia. }
  lia.
Qed.

Lemma shr_1_m (r : shr_record) :
  0 <= shr_m r -> shr_m (shr_1 r) = shr_m r / 2 /\ 0 <= shr_m (shr_1 r).
Proof.
  destruct r as [m r s]. cbn [shr_m]. intros Hm.
  destruct m as [|[p|p|]|p]; cbn [shr_1 shr_m]; try lia.
  - split; [reflexivity | lia].
  - split; [|lia]. apply Z.div_unique with (r := 1); lia.
  - split; [|lia]. apply Z.div_unique with (r := 0); lia.
  - split; [reflexivity | lia].
Qed.

Lemma iter_shr_1_m (k : positive) : forall r : shr_record,
  0 <= shr_m r ->
  shr_m (SpecFloat.iter_pos shr_1 k r) = shr_m r / 2 ^ Z.pos k /\
  0 <= shr_m (SpecFloat.iter_pos shr_1 k r).
Proof.
  induction k as [k IH|k IH|]; intros r Hr; cbn [SpecFloat.iter_pos];
    try assert (Hp : 0 < 2 ^ Z.pos k) by (apply Z.pow_pos_nonneg; lia).
  - destruct (shr_1_m r Hr) as [E1 P1].
    destruct (IH _ P1) as [E2 P2]. destruct (IH _ P2) as [E3 P3].
    split; [|exact P3]. rewrite E3, E2, E1.
    rewrite !Z.div_div by lia.
    f_equal. rewrite (Pos2Z.inj_xI k).
    replace (2 * Z.pos k + 1) with (1 + Z.pos k + Z.pos k) by lia.
    rewrite !Z.pow_add_r by lia. lia.
  - destruct (IH _ Hr) as [E2 P2]. destruct (IH _ P2) as [E3 P3].
    split; [|exact P3]. rewrite E3, E2.
    rewrite !Z.div_div by lia.
    f_equal. rewrite (Pos2Z.inj_xO k).
    replace (2 * Z.pos k) with (Z.pos k + Z.pos k) by lia.
    rewrite !Z.pow_add_r by lia. lia.
  - destruct (shr_1_m r Hr) as [E1 P1]. split; [|exact P1].
    rewrite E1. reflexivity.
Qed.

Lemma round_nearest_even_cases (m : Z) (l : location) :
  round_nearest_even m l = m \/ round_nearest_even m l = m + 1.
Proof.
  destruct l as [|[| |]]; simpl; auto.
  destruct (Z.even m); auto.
Qed.

Lemma fexp_normal (e : Z) : -1021 <= e -> fexp 53 1024 e = e - 53.
Proof. unfold fexp, emin. lia. Qed.

(** A mantissa of exactly 53 bits is kept as it is. *)
Lemma binary_round_aux_exact (m : positive) (e : Z) :
  Z.pos (digits2_pos m) = 53 -> -1074 <= e <= 971 ->
  binary_round_aux 53 1024 false (Z.pos m) e loc_Exact = S754_finite false m e.
Proof.
  intros Hd He. unfold binary_round_aux, shr_fexp. cbn [Zdigits2 shr_record_of_loc].
  rewrite Hd, fexp_normal by lia.
  replace (53 + e - 53 - e) with 0 by lia.
  cbn [shr shr_m loc_of_shr_record round_nearest_even Zdigits2].
  rewrite Hd, fexp_normal by lia.
  replace (53 + e - 53 - e) with 0 by lia.
  cbn [shr shr_m].
  destruct (Z.leb_spec e (1024 - 53)); [reflexivity | lia].
Qed.

(** A mantissa of [53 + a] bits is shifted by [a] and rounded to one of the
    two neighbours; truncation of the result to an integer sees [m1]. *)
Lemma binary_round_aux_trunc (M : positive) (E a : Z) :
  Z.pos (digits2_pos M) = 53 + a -> 0 < a ->
  -1074 <= E + a -> E + a <= -2 ->
  exists m e m1,
    binary_round_aux 53 1024 false (Z.pos M) E loc_Exact = S754_finite false m e /\
    (m1 = Z.pos M / 2 ^ a \/ m1 = Z.pos M / 2 ^ a + 1) /\
    Float.trunc_pos m e = m1 / 2 ^ (- (E + a)).
Proof.
  intros Hd Ha Hlo Hhi.
  pose proof (digits2_pos_bounds M) as [Mlo Mhi]. rewrite Hd in Mlo, Mhi.
  remember (Z.pos M / 2 ^ a) as q eqn:Eqq.
  assert (Hq : 2 ^ 52 <= q < 2 ^ 53).
  { subst q. replace (53 + a - 1) with (52 + a) in Mlo by lia.
    rewrite Z.pow_add_r in Mlo, Mhi by lia.
    assert (0 < 2 ^ a) by (apply Z.pow_pos_nonneg; lia).
    split.
    - apply Z.div_le_lower_bound; lia.
    - apply Z.div_lt_upper_bound; lia. }
  unfold binary_round_aux, shr_fexp. cbn [Zdigits2 shr_record_of_loc].
  rewrite Hd, fexp_normal by lia.
  replace (53 + a + E - 53 - E) with a by lia.
  destruct a as [|pa|pa]; try lia. cbn [shr].
  destruct (iter_shr_1_m pa {| shr_m := Z.pos M; shr_r := false; shr_s := false |})
    as [Em _]; [simpl; lia|].
  cbn [shr_m] in Em. rewrite <- Eqq in Em.
  set (mrs := SpecFloat.iter_pos shr_1 pa _) in *.
  destruct (round_nearest_even_cases (shr_m mrs) (loc_of_shr_record mrs)) as [Hr|Hr];
    rewrite Hr, Em.
  - (* rounded down: the mantissa is q *)
    destruct q as [|pq|pq]; try lia.
    assert (Hdq : Z.pos (digits2_pos pq) = 53) by (apply digits2_pos_unique; lia).
    cbn [Zdigits2 shr_record_of_loc]. rewrite Hdq, fexp_normal by lia.
    replace (53 + (E + Z.pos pa) - 53 - (E + Z.pos pa)) with 0 by lia.
    cbn [shr shr_m].
    destruct (Z.leb_spec (E + Z.pos pa) (1024 - 53)); [|lia].
    exists pq, (E + Z.pos pa), (Z.pos pq). split; [reflexivity|]. split; [by left|].
    unfold Float.trunc_pos. destruct (Z.leb_spec 0 (E + Z.pos pa)); [lia | reflexivity].
  - (* rounded up: the mantissa is q + 1, perhaps 2^53 *)
    destruct (Z.eq_dec (q + 1) (2 ^ 53)) as [Hc|Hc].
    + assert (Hc' : q + 1 = Z.pos 9007199254740992) by (rewrite Hc; reflexivity).
      rewrite Hc'. cbn [Zdigits2 shr_record_of_loc].
      change (digits2_pos 9007199254740992) with 54%positive.
      rewrite fexp_normal by lia.
      replace (54 + (E + Z.pos pa) - 53 - (E + Z.pos pa)) with 1 by lia.
      cbn [shr SpecFloat.iter_pos shr_1 shr_m].
      destruct (Z.leb_spec (E + Z.pos pa + 1) (1024 - 53)); [|lia].
      eexists _, _, (q + 1). split; [reflexivity|]. split; [by right|].
      unfold Float.trunc_pos. destruct (Z.leb_spec 0 (E + Z.pos pa + 1)); [lia|].
      rewrite Hc.
      replace (- (E + Z.pos pa)) with (1 + - (E + Z.pos pa + 1)) by lia.
      rewrite Z.pow_add_r by lia.
      change (2 ^ 53) with (2 ^ 1 * 4503599627370496).
      rewrite Z.div_mul_cancel_l; [reflexivity | | lia].
      apply Z.pow_nonzero; lia.
    + destruct (q + 1) as [|pq|pq] eqn:Eq; try lia.
      assert (Hdq : Z.pos (digits2_pos pq) = 53) by (apply digits2_pos_unique; lia).
      cbn [Zdigits2 shr_record_of_loc]. rewrite Hdq, fexp_normal by lia.
      replace (53 + (E + Z.pos pa) - 53 - (E + Z.pos pa)) with 0 by lia.
      cbn [shr shr_m].
      destruct (Z.leb_spec (E + Z.pos pa) (1024 - 53)); [|lia].
      exists pq, (E + Z.pos pa), (Z.pos pq). split; [reflexivity|]. split; [by right|].
      unfold Float.trunc_pos. destruct (Z.leb_spec 0 (E + Z.pos pa)); [lia | reflexivity].
Qed.

Lemma iter_xO_value (k m : positive) :
  Z.pos (Pos.iter xO m k) = Z.pos m * 2 ^ Z.pos k.
Proof.
  induction k as [|k IH] using Pos.peano_ind.
  - simpl. lia.
  - rewrite Pos.iter_succ, Pos2Z.inj_xO, IH, Pos2Z.inj_succ, Z.pow_succ_r by lia. lia.
Qed.

(** [float(n)] is exact for a small positive [n]: the mantissa is [n] shifted
    up to 53 bits. *)
Lemma of_int_small (p k : positive) :
  Z.pos (digits2_pos p) + Z.pos k = 53 ->
  Float.of_int (Z.pos p) = Ok (S754_finite false (Pos.iter xO p k) (- Z.pos k)) /\
  Z.pos (digits2_pos (Pos.iter xO p k)) = 53.
Proof.
  intros Hd.
  assert (Hk : Z.pos (digits2_pos (Pos.iter xO p k)) = 53).
  { apply digits2_pos_unique. rewrite iter_xO_value.
    pose proof (digits2_pos_bounds p) as [Lo Hi].
    assert (0 < 2 ^ Z.pos k) by (apply Z.pow_pos_nonneg; lia).
    replace (53 - 1) with (Z.pos (digits2_pos p) - 1 + Z.pos k) by lia.
    rewrite <- Hd.
    rewrite (Z.pow_add_r 2 (Z.pos (digits2_pos p) - 1) (Z.pos k)) by lia.
    rewrite (Z.pow_add_r 2 (Z.pos (digits2_pos p)) (Z.pos k)) by lia.
    split; nia. }
  split; [|exact Hk].
  unfold Float.of_int, binary_normalize, binary_round, Float.prec, Float.emax.
  rewrite fexp_normal by lia.
  replace (Z.pos (digits2_pos p) + 0 - 53) with (Z.neg k) by lia.
  unfold shl_align. replace (Z.neg k - 0) with (Z.neg k) by lia.
  rewrite binary_round_aux_exact by (try exact Hk; lia).
  replace (Z.neg k) with (- Z.pos k) by lia. reflexivity.
Qed.

(** [int(n * c)] for an image dimension [n] and a constant [c] of 53 bits
    between 2^-12 and 1: the result is bracketed by the exact product with
    [c] and with [c] two units in the last place higher. *)
Lemma int_mul_bounds (n : Z) (mc : positive) (ec : Z) :
  0 < n < 2 ^ 31 -> 2 ^ 52 <= Z.pos mc < 2 ^ 53 -> -64 <= ec <= -53 ->
  exists r, Sprite.int_mul n (S754_finite false mc ec) = Ok r /\
    n * Z.pos mc / 2 ^ (- ec) <= r /\ r * 2 ^ (- ec) <= n * (Z.pos mc + 2).
Proof.
  intros Hn Hmc Hec. destruct n as [|p|p]; try lia.
  pose proof (digits2_pos_bounds p) as [Plo Phi].
  set (d := Z.pos (digits2_pos p)) in *.
  assert (Hd : 1 <= d <= 31).
  { split; [unfold d; lia|].
    assert (d - 1 < 31); [|lia]. apply (Z.pow_lt_mono_r_iff 2); lia. }
  destruct (53 - d) as [|k|k] eqn:Ek; try lia.
  destruct (of_int_small p k) as [Hf Hdm]; [fold d; lia|].
  unfold Sprite.int_mul. rewrite Hf. simpl mbind.
  unfold Float.mul, SFmul, Float.prec, Float.emax. cbn [xorb].
  set (m1 := Pos.iter xO p k) in *.
  pose proof (iter_xO_value k p) as Hm1. fold m1 in Hm1.
  pose proof (digits2_pos_bounds m1) as [M1lo M1hi]. rewrite Hdm in M1lo, M1hi.
  assert (P2k : 0 < 2 ^ Z.pos k) by (apply Z.pow_pos_nonneg; lia).
  assert (PC : 0 < 2 ^ (- ec)) by (apply Z.pow_pos_nonneg; lia).
  (* the product has 105 or 106 bits *)
  assert (Hprod : 2 ^ 104 <= Z.pos (m1 * mc) < 2 ^ 106).
  { rewrite Pos2Z.inj_mul.
    change (2 ^ 104) with (2 ^ 52 * 2 ^ 52). change (2 ^ 106) with (2 ^ 53 * 2 ^ 53).
    change (53 - 1) with 52 in M1lo. split; nia. }
  assert (Ha : exists a, (a = 52 \/ a = 53) /\ Z.pos (digits2_pos (m1 * mc)) = 53 + a).
  { destruct (Z.lt_ge_cases (Z.pos (m1 * mc)) (2 ^ 105)).
    - exists 52. split; [by left|]. apply digits2_pos_unique.
      change (53 + 52 - 1) with 104. change (53 + 52) with 105. lia.
    - exists 53. split; [by right|]. apply digits2_pos_unique.
      change (53 + 53 - 1) with 105. change (53 + 53) with 106. lia. }
  destruct Ha as (a & Ha & Hda).
  destruct (binary_round_aux_trunc (m1 * mc) (- Z.pos k + ec) a Hda)
    as (m & e & mr & Hbr & Hmr & Htr); [lia | lia | lia |].
  rewrite Hbr. cbn [Float.to_int]. exists (Float.trunc_pos m e).
  split; [reflexivity|]. rewrite Htr. clear Hbr Htr.
  set (t := - (- Z.pos k + ec + a)) in *.
  assert (Ht : 0 < t) by (unfold t; lia).
  assert (PA : 0 < 2 ^ a) by (apply Z.pow_pos_nonneg; lia).
  assert (PT : 0 < 2 ^ t) by (apply Z.pow_pos_nonneg; lia).
  assert (Hat : 2 ^ a * 2 ^ t = 2 ^ Z.pos k * 2 ^ (- ec)).
  { rewrite <- !Z.pow_add_r by lia. f_equal. unfold t. lia. }
  assert (Ha53 : 2 ^ a <= 2 ^ Z.pos k * (2 * Z.pos p)).
  { assert (2 ^ a <= 2 ^ 53) by (apply Z.pow_le_mono_r; lia).
    assert (2 ^ 53 = 2 ^ Z.pos k * (2 * 2 ^ (d - 1))).
    { rewrite <- (Z.pow_succ_r 2 (d - 1)), <- Z.pow_add_r by lia. f_equal. lia. }
    nia. }
  set (q := Z.pos (m1 * mc) / 2 ^ a) in *.
  assert (Hq : q * 2 ^ a <= Z.pos (m1 * mc) < (q + 1) * 2 ^ a).
  { unfold q. pose proof (Z.div_mod (Z.pos (m1 * mc)) (2 ^ a)).
    pose proof (Z.mod_pos_bound (Z.pos (m1 * mc)) (2 ^ a) PA). lia. }
  assert (Hexact : Z.pos p * Z.pos mc / 2 ^ (- ec) = q / 2 ^ t).
  { unfold q. rewrite Z.div_div, Hat by lia.
    rewrite Pos2Z.inj_mul, Hm1.
    replace (Z.pos p * 2 ^ Z.pos k * Z.pos mc) with (Z.pos p * Z.pos mc * 2 ^ Z.pos k) by lia.
    rewrite (Z.mul_comm (2 ^ Z.pos k)).
    rewrite Z.div_mul_cancel_r by lia. reflexivity. }
  assert (Hup : (q + 1) / 2 ^ t * 2 ^ (- ec) <= Z.pos p * (Z.pos mc + 2)).
  { pose proof (Z.mul_div_le (q + 1) (2 ^ t) PT) as Hle.
    rewrite Pos2Z.inj_mul, Hm1 in Hq.
    apply (Z.mul_le_mono_pos_r _ _ (2 ^ Z.pos k)); [lia|].
    set (R := (q + 1) / 2 ^ t) in *.
    assert (S1 : R * 2 ^ t * 2 ^ a <= (q + 1) * 2 ^ a)
      by (apply Z.mul_le_mono_nonneg_r; lia).
    assert (S2 : R * (2 ^ a * 2 ^ t) = R * (2 ^ Z.pos k * 2 ^ (- ec)))
      by (rewrite Hat; reflexivity).
    lia. }
  destruct Hmr as [-> | ->].
  - split; [lia|].
    assert (q / 2 ^ t <= (q + 1) / 2 ^ t) by (apply Z.div_le_mono; lia).
    assert (q / 2 ^ t * 2 ^ (- ec) <= (q + 1) / 2 ^ t * 2 ^ (- ec))
      by (apply Z.mul_le_mono_nonneg_r; lia).
    lia.
  - split; [|exact Hup]. rewrite Hexact. apply Z.div_le_mono; lia.
Qed.

(** ** Geometry of the sprite *)

(** The constants as binary64 numbers. *)
Lemma TOP_RATIO_value : TOP_RATIO = S754_finite false 5764607523034235 (-56).
Proof. reflexivity. Qed.

Lemma one_minus_bottom_value :
  Sprite.one_minus_bottom = Ok (S754_finite false 8286623314361713 (-53)).
Proof. reflexivity. Qed.

Lemma RIGHT_FRACTION_value : RIGHT_FRACTION = S754_finite false 4953959590107546 (-53).
Proof. reflexivity. Qed.

Lemma shifted_center_value :
  Sprite.shifted_center = S754_finite false 8376695306909122 (-54).
Proof. reflexivity. Qed.

Lemma int_mul_zero (x : spec_float) m e :
  x = S754_finite false m e -> Sprite.int_mul 0 x = Ok 0.
Proof. intros ->. reflexivity. Qed.

(** [int(h * 0.08)] is the floor of 8% of [h]. *)
Lemma int_mul_TOP_RATIO (h : Z) :
  0 <= h < 2 ^ 31 -> Sprite.int_mul h TOP_RATIO = Ok (8 * h / 100).
Proof.
  intros Hh. rewrite TOP_RATIO_value.
  destruct (Z.eq_dec h 0) as [->|Hz]; [reflexivity|].
  destruct (int_mul_bounds h 5764607523034235 (-56)) as (r & -> & Lo & Hi); [lia..|].
  f_equal. change (2 ^ (- -56)) with 72057594037927936 in *.
  change (2 ^ 31) with 2147483648 in Hh. div_lia.
Qed.

(** [int(h * (1 - 0.08))] is the floor of 92% of [h]. *)
Lemma int_mul_one_minus_bottom (h : Z) :
  0 <= h < 2 ^ 31 ->
  Sprite.int_mul h (S754_finite false 8286623314361713 (-53)) = Ok (92 * h / 100).
Proof.
  intros Hh.
  destruct (Z.eq_dec h 0) as [->|Hz]; [reflexivity|].
  destruct (int_mul_bounds h 8286623314361713 (-53)) as (r & -> & Lo & Hi); [lia..|].
  f_equal. change (2 ^ (- -53)) with 9007199254740992 in *.
  change (2 ^ 31) with 2147483648 in *. div_lia.
Qed.

(** [int(w * 0.55)] is the floor of 55% of [w]. *)
Lemma int_mul_RIGHT_FRACTION (w : Z) :
  0 <= w < 2 ^ 31 -> Sprite.int_mul w RIGHT_FRACTION = Ok (55 * w / 100).
Proof.
  intros Hw. rewrite RIGHT_FRACTION_value.
  destruct (Z.eq_dec w 0) as [->|Hz]; [reflexivity|].
  destruct (int_mul_bounds w 4953959590107546 (-53)) as (r & -> & Lo & Hi); [lia..|].
  f_equal. change (2 ^ (- -53)) with 9007199254740992 in *.
  change (2 ^ 31) with 2147483648 in *. div_lia.
Qed.

(** [int(w * (0.5 - 0.035))]: the binary64 difference lies just below 0.465,
    so the result is the floor of 46.5% of [w] or one less (it is 464 for
    [w = 1000]). *)
Lemma int_mul_shifted_center (w : Z) :
  0 <= w < 2 ^ 31 ->
  exists c, Sprite.int_mul w Sprite.shifted_center = Ok c /\
    465 * w / 1000 - 1 <= c <= 465 * w / 1000 /\ 0 <= c.
Proof.
  intros Hw. rewrite shifted_center_value.
  destruct (Z.eq_dec w 0) as [->|Hz]; [exists 0; split; [reflexivity | div_lia]|].
  destruct (int_mul_bounds w 8376695306909122 (-54)) as (r & -> & Lo & Hi); [lia..|].
  exists r. split; [reflexivity|].
  change (2 ^ (- -54)) with 18014398509481984 in *.
  change (2 ^ 31) with 2147483648 in Hw. div_lia.
Qed.

Example center_raw_1000 : Sprite.center_raw 1000 = Ok 464.
Proof. reflexivity. Qed.

Lemma trimmed_value (h : Z) :
  0 <= h < 2 ^ 31 -> Sprite.trimmed h = Ok (8 * h / 100, 92 * h / 100).
Proof.
  intros Hh. unfold Sprite.trimmed.
  rewrite int_mul_TOP_RATIO, one_minus_bottom_value by exact Hh. simpl mbind.
  rewrite int_mul_one_minus_bottom by exact Hh. reflexivity.
Qed.

(** The fallback is taken exactly for the heights 0..11 and 13 (a height of
    12 leaves 11 rows, a height of 13 only 10). *)
Lemma degenerate_iff (h : Z) :
  0 <= h < 2 ^ 31 ->
  Sprite.degenerate (8 * h / 100, 92 * h / 100) = true <-> h <= 11 \/ h = 13.
Proof.
  intros Hh. unfold Sprite.degenerate. cbn [fst snd]. rewrite Z.leb_le.
  change (2 ^ 31) with 2147483648 in Hh.
  destruct (Z.le_gt_cases 14 h); [div_lia|].
  assert (Hs : h = 0 \/ h = 1 \/ h = 2 \/ h = 3 \/ h = 4 \/ h = 5 \/ h = 6 \/ h = 7
               \/ h = 8 \/ h = 9 \/ h = 10 \/ h = 11 \/ h = 12 \/ h = 13) by lia.
  repeat (destruct Hs as [->|Hs]; [vm_compute; intuition (discriminate || lia)|]).
  subst h. vm_compute. intuition (discriminate || lia).
Qed.

(** From a height of 14 on the fallback is not taken. *)
Lemma no_fallback_from_14 (h : Z) :
  14 <= h < 2 ^ 31 -> Sprite.usable_region h = Ok (8 * h / 100, 92 * h / 100).
Proof.
  intros Hh. unfold Sprite.usable_region. rewrite trimmed_value by lia. simpl mbind.
  destruct (Sprite.degenerate _) eqn:E; [|reflexivity].
  apply degenerate_iff in E; lia.
Qed.

Lemma center_x_value (w : Z) :
  0 <= w < 2 ^ 31 ->
  exists c, Sprite.center_raw w = Ok c /\ Sprite.center_x w = Ok c /\
    465 * w / 1000 - 1 <= c <= 465 * w / 1000 /\ 0 <= c.
Proof.
  intros Hw. destruct (int_mul_shifted_center w Hw) as (c & Hc & Hb & Hp).
  exists c. unfold Sprite.center_x, Sprite.center_raw. rewrite Hc. simpl mbind.
  split; [reflexivity|]. split; [|done]. f_equal.
  change (2 ^ 31) with 2147483648 in Hw. div_lia.
Qed.

Lemma right_raw_value (w : Z) :
  0 <= w < 2 ^ 31 -> Sprite.right_raw w = Ok (w - 55 * w / 100).
Proof.
  intros Hw. unfold Sprite.right_raw. rewrite int_mul_RIGHT_FRACTION by exact Hw.
  reflexivity.
Qed.

Lemma right_x0_value (w : Z) :
  0 <= w < 2 ^ 31 ->
  exists c, Sprite.center_raw w = Ok c /\
    Sprite.right_x0 w = Ok (Z.min (w - 55 * w / 100) c).
Proof.
  intros Hw. destruct (center_x_value w Hw) as (c & Hraw & Hc & _).
  exists c. split; [exact Hraw|].
  unfold Sprite.right_x0. rewrite Hc, right_raw_value by exact Hw. simpl mbind.
  f_equal. change (2 ^ 31) with 2147483648 in Hw. div_lia.
Qed.

Lemma sprite_loop_value (w top bot band_h x0 : Z) (rows : list Z) :
  Sprite.right_x0 w = Ok x0 ->
  Sprite.sprite_loop w top bot band_h rows
    = Ok ((fun i => let band := Sprite.band_box w top bot band_h i in
                    (band, Sprite.Box x0 0 w (Sprite.lower band - Sprite.upper band)))
            <$> rows).
Proof.
  intros Hx. induction rows as [|i rows IH]; [reflexivity|].
  cbn [Sprite.sprite_loop]. unfold Sprite.right_box. rewrite Hx. simpl mbind.
  rewrite IH. reflexivity.
Qed.

Lemma build_right_only_sprite_value (w h : Z) :
  0 <= w < 2 ^ 31 -> 0 <= h < 2 ^ 31 ->
  exists top bot x0,
    Sprite.usable_region h = Ok (top, bot) /\
    Sprite.right_x0 w = Ok x0 /\
    Sprite.build_right_only_sprite w h =
      Ok (let band_h := Sprite.band_height (bot - top) in
          Sprite.Layout top bot (bot - top) band_h
            ((fun i => let band := Sprite.band_box w top bot band_h i in
                       (band, Sprite.Box x0 0 w (Sprite.lower band - Sprite.upper band)))
               <$> Sprite.rows)).
Proof.
  intros Hw Hh.
  destruct (right_x0_value w Hw) as (c & _ & Hx).
  assert (Hu : exists top bot, Sprite.usable_region h = Ok (top, bot)).
  { unfold Sprite.usable_region. rewrite trimmed_value by exact Hh. simpl mbind.
    destruct (Sprite.degenerate _); eauto. }
  destruct Hu as (top & bot & Hu).
  exists top, bot, (Z.min (w - 55 * w / 100) c).
  split; [exact Hu|]. split; [exact Hx|].
  unfold Sprite.build_right_only_sprite. rewrite Hu.
  cbn -[Sprite.sprite_loop Sprite.rows Sprite.band_height].
  rewrite (sprite_loop_value w _ _ _ _ _ Hx). reflexivity.
Qed.



(** C2: when the fallback is not taken, the usable height is [h] minus the top
    margin (8% of [h], rounded down) and the bottom margin (8% of [h],
    rounded up, that is [h] minus 92% of [h] rounded down); the band height
    is the usable height divided by 10 (integer division); and the tenth
    band ends exactly at the bottom of the usable region. *)
Theorem sprite_band_geometry (w h : Z) (tb : Z * Z) :
  0 <= w < 2 ^ 31 -> 0 <= h < 2 ^ 31 ->
  Sprite.trimmed h = Ok tb -> Sprite.degenerate tb = false ->
  exists lay band10 right10,
    Sprite.build_right_only_sprite w h = Ok lay /\
    Sprite.top lay = 8 * h / 100 /\
    Sprite.bot lay = 92 * h / 100 /\
    Sprite.usable_h lay = h - 8 * h / 100 - (h - 92 * h / 100) /\
    Sprite.band_h lay = Sprite.usable_h lay / 10 /\
    Sprite.tiles lay !! 9%nat = Some (band10, right10) /\
    Sprite.upper band10 = Sprite.top lay + 9 * Sprite.band_h lay /\
    Sprite.lower band10 = Sprite.top lay + Sprite.usable_h lay /\
    Sprite.lower band10 = Sprite.bot lay.
Proof.
  intros Hw Hh Ht Hd.
  rewrite trimmed_value in Ht by exact Hh. injection Ht as <-.
  destruct (build_right_only_sprite_value w h Hw Hh) as (top & bot & x0 & Hu & Hx & Hb).
  unfold Sprite.usable_region in Hu. rewrite trimmed_value in Hu by exact Hh.
  simpl mbind in Hu. rewrite Hd in Hu. injection Hu as <- <-.
  unfold Sprite.degenerate in Hd. cbn [fst snd] in Hd. apply Z.leb_gt in Hd.
  eexists _, _, _. split; [exact Hb|]. cbn [Sprite.top Sprite.bot Sprite.usable_h
    Sprite.band_h Sprite.tiles Sprite.rows fmap list_fmap lookup list_lookup
    Sprite.band_box Sprite.upper Sprite.lower].
  change (9 =? 9) with true. cbv iota.
  split; [reflexivity|]. split; [reflexivity|]. split; [lia|].
  split; [unfold Sprite.band_height; div_lia|].
  split; [reflexivity|]. unfold Sprite.band_box. cbn [Sprite.upper Sprite.lower].
  change (9 =? 9) with true. cbv iota.
  split; [reflexivity|]. split; [lia | reflexivity].
Qed.

Lemma sprite_band_geometry_witness :
  exists lay band10 right10,
    Sprite.build_right_only_sprite 1000 800 = Ok lay /\
    Sprite.top lay = 64 /\
    Sprite.bot lay = 736 /\
    Sprite.usable_h lay = 672 /\
    Sprite.band_h lay = 67 /\
    Sprite.tiles lay !! 9%nat = Some (band10, right10) /\
    Sprite.upper band10 = 667 /\
    Sprite.lower band10 = 736.
Proof.
  destruct (sprite_band_geometry 1000 800 (64, 736))
    as (lay & b & r & H1 & H2 & H3 & H4 & H5 & H6 & H7 & H8 & H9);
    [lia | lia | reflexivity | reflexivity |].
  exists lay, b, r. split; [exact H1|]. split; [exact H2|]. split; [exact H3|].
  split; [exact H4|]. assert (Hb : Sprite.band_h lay = 67) by (rewrite H5, H4; reflexivity).
  split; [exact Hb|]. split; [exact H6|].
  split; [rewrite H7, H2, Hb; reflexivity | rewrite H9, H3; reflexivity].
Defined.

(** C8: the right crop of a band starts at [w - int(w * 0.55)], that is 45%
    of the width from the left edge, unless that exceeds the shifted centre
    [int(w * (0.5 - 0.035))]; then it starts at the shifted centre.  The crop
    runs from that start to the full width [w].  The clamps of the source
    ([max(0, ...)], [min(w - 1, ...)]) never change these values; the shifted
    centre is 46.5% of [w] rounded down, or one less (binary64 rounding). *)
Theorem right_crop_start (w band_height : Z) :
  0 <= w < 2 ^ 31 ->
  exists c start,
    Sprite.center_raw w = Ok c /\
    Sprite.center_x w = Ok c /\
    465 * w / 1000 - 1 <= c <= 465 * w / 1000 /\
    Sprite.right_raw w = Ok (w - 55 * w / 100) /\
    45 * w / 100 <= w - 55 * w / 100 <= 45 * w / 100 + 1 /\
    start = (if w - 55 * w / 100 <=? c then w - 55 * w / 100 else c) /\
    Sprite.right_x0 w = Ok start /\
    Sprite.right_box w band_height = Ok (Sprite.Box start 0 w band_height).
Proof.
  intros Hw.
  destruct (center_x_value w Hw) as (c & Hraw & Hc & Hcb & _).
  destruct (right_x0_value w Hw) as (c' & Hraw' & Hx).
  assert (c' = c) as -> by congruence.
  exists c, (Z.min (w - 55 * w / 100) c).
  split; [exact Hraw|]. split; [exact Hc|]. split; [exact Hcb|].
  split; [by apply right_raw_value|].
  split; [div_lia|].
  split; [destruct (Z.leb_spec (w - 55 * w / 100) c); lia|].
  split; [exact Hx|].
  unfold Sprite.right_box. rewrite Hx. reflexivity.
Qed.

Lemma right_crop_start_witness :
  Sprite.right_box 1000 67 = Ok (Sprite.Box 450 0 1000 67) /\
  Sprite.right_box 1 67 = Ok (Sprite.Box 0 0 1 67).
Proof.
  split.
  - destruct (right_crop_start 1000 67) as (c & s & Hc & _ & _ & _ & _ & -> & _ & Hb); [lia|].
    rewrite Hb. assert (c = 464) as -> by (vm_compute in Hc; congruence). reflexivity.
  - destruct (right_crop_start 1 67) as (c & s & Hc & _ & _ & _ & _ & -> & _ & Hb); [lia|].
    rewrite Hb. assert (c = 0) as -> by (vm_compute in Hc; congruence). reflexivity.
Defined.

(** ** Temporary files of a request *)

Lemma io_bind_ok {A B : Type} (m : io A) (k : A -> io B) fs b fs' :
  (m ≫= k) fs = (Ok b, fs') ->
  exists a fs1, m fs = (Ok a, fs1) /\ k a fs1 = (Ok b, fs').
Proof.
  unfold mbind, io_mbind, io_bind. destruct (m fs) as [[a|e] fs1]; [eauto | discriminate].
Qed.

Lemma cleanup_spec (wd : world) (ps : list string) : forall fs,
  exists fs', cleanup wd ps fs = (Ok (), fs') /\ fs' ⊆ fs /\
    forall p, p ∈ ps -> remove_fails wd p = false -> p ∉ fs'.
Proof.
  induction ps as [|p ps IH]; intros fs.
  - exists fs. split; [reflexivity|]. split; [done|]. intros p Hp. by apply elem_of_nil in Hp.
  - cbn [cleanup]. unfold mbind, io_mbind, io_bind, io_try, os_remove.
    destruct (remove_fails wd p || negb (bool_decide (p ∈ fs))) eqn:Hc.
    + cbn [io_ret]. destruct (IH fs) as (fs' & Hrun & Hsub & Hrm).
      exists fs'. split; [exact Hrun|]. split; [exact Hsub|].
      intros p' [->|Hin]%elem_of_cons Hf; [|by apply Hrm].
      rewrite Hf in Hc. cbn in Hc. apply negb_true_iff, bool_decide_eq_false in Hc.
      intros Hp'. apply Hc, Hsub, Hp'.
    + destruct (IH (fs ∖ {[p]})) as (fs' & Hrun & Hsub & Hrm).
      exists fs'. split; [exact Hrun|]. split.
      { intros x Hx. apply Hsub, elem_of_difference in Hx. tauto. }
      intros p' [->|Hin]%elem_of_cons Hf; [|by apply Hrm].
      intros Hp'. apply Hsub, elem_of_difference in Hp' as [_ Hn].
      apply Hn, elem_of_singleton. reflexivity.
Qed.

Lemma save_crops_paths (wd : world) (rows : list Z) : forall fs l fs',
  save_crops wd rows fs = (Ok l, fs') -> l = crop_path wd <$> rows.
Proof.
  induction rows as [|i rows IH]; intros fs l fs' H.
  - cbn in H. injection H as <- <-. reflexivity.
  - cbn [save_crops] in H.
    apply io_bind_ok in H as (? & fs1 & _ & H).
    apply io_bind_ok in H as (? & fs2 & _ & H).
    apply io_bind_ok in H as (rest & fs3 & Hrest & H).
    injection H as <- <-. rewrite (IH _ _ _ Hrest). reflexivity.
Qed.

Lemma build_sprite_files_paths (wd : world) (w h : Z) fs sc fs' :
  build_sprite_files wd w h fs = (Ok sc, fs') ->
  sc = (sprite_path wd, crop_path wd <$> Sprite.rows).
Proof.
  unfold build_sprite_files. intros H.
  apply io_bind_ok in H as (? & fs1 & _ & H).
  apply io_bind_ok in H as (crops & fs2 & Hc & H).
  apply io_bind_ok in H as (? & fs3 & _ & H).
  injection H as <- <-. by rewrite (save_crops_paths _ _ _ _ _ Hc).
Qed.

(** On the success path every derived image is removed, unless its removal
    fails (the failure is swallowed). *)
Lemma api_contar_success_cleans (wd : world) (name : string) fs counts raw fs' :
  api_contar wd (Some name) fs = (Ok (Resp200 counts raw), fs') ->
  forall p, p ∈ derived wd -> remove_fails wd p = false -> p ∉ fs'.
Proof.
  intros H p Hp Hf. destruct name as [|c name]; [discriminate H|].
  cbn [api_contar] in H. unfold io_try in H.
  destruct (api_contar_body wd fs) as [[r|e] fs1] eqn:Hb; [|discriminate H].
  injection H as -> ->. unfold api_contar_body in Hb.
  apply io_bind_ok in Hb as (? & f1 & _ & Hb).
  apply io_bind_ok in Hb as (size & f2 & _ & Hb).
  apply io_bind_ok in Hb as (sc & f3 & Hsc & Hb).
  apply io_bind_ok in Hb as (? & f4 & _ & Hb).
  apply io_bind_ok in Hb as (? & f5 & _ & Hb).
  apply io_bind_ok in Hb as (result & f6 & _ & Hb).
  apply io_bind_ok in Hb as (contagem & f7 & _ & Hb).
  apply io_bind_ok in Hb as (cnt & f8 & _ & Hb).
  apply io_bind_ok in Hb as (? & f9 & Hcl & Hb).
  injection Hb as _ _ <-.
  apply build_sprite_files_paths in Hsc as ->. cbn [fst snd] in Hcl.
  destruct (cleanup_spec wd (saved_path wd :: sprite_path wd :: (crop_path wd <$> Sprite.rows)) f8)
    as (f' & Hcl' & _ & Hrm).
  assert (f9 = f') as -> by congruence.
  by apply Hrm.
Qed.









(** C6 (the code at a failing input): the call to the model times out; the
    handler answers 500 and all twelve derived images (the saved upload, the
    sprite and the ten crops) are still in the upload folder. *)
Theorem api_contar_error_leaks :
  exists fs',
    api_contar timeout_world (Some "abaco.jpg") ∅
      = (Ok (Resp500 (ExternalError "504 Deadline Exceeded")), fs') /\
    fs' = list_to_set (derived timeout_world) /\
    size fs' = 12%nat.
Proof.
  eexists. split; [vm_compute; reflexivity|]. split; vm_compute; reflexivity.
Qed.

(** The same leak when every collaborator succeeds and the reply holds a
    [contagem] that is a list: [raw.get] raises [AttributeError]. *)
Lemma api_contar_list_reply_leaks :
  api_contar list_reply_world (Some "abaco.jpg") ∅
    = (Ok (Resp500 AttributeError), list_to_set (derived list_reply_world)).
Proof. vm_compute. reflexivity. Qed.

(** The success path on the same request leaves the folder empty. *)
Lemma api_contar_good_cleans :
  api_contar good_world (Some "abaco.jpg") ∅ = (Ok (Resp200 scenario_counts
    (JDict {[ "contagem" := JDict {[ "aerosaculite" := JInt 3 ]} ]})), ∅).
Proof. vm_compute. reflexivity. Qed.

(** * Further properties *)

(** ** Counts normalisation *)

(** X1: normalising twice is normalising once, on every dictionary: the
    output, read back as a JSON object, is a fixed point. *)
Theorem normalize_twice (m : gmap string json) :
  exists out : gmap string Z,
    normalize_counts_map (JDict m) = Ok out /\
    normalize_counts_map (JDict (JInt <$> out)) = Ok out.
Proof.
  destruct (normalize_counts_map_dict m) as (out & Hrun & Hlk).
  exists out. split; [exact Hrun|].
  destruct (normalize_counts_map_dict (JInt <$> out)) as (out2 & Hrun2 & Hlk2).
  rewrite Hrun2. f_equal. apply map_eq. intros k. rewrite Hlk2, Hlk.
  destruct (decide (k ∈ LINES)) as [Hin|Hin]; [|reflexivity].
  f_equal. unfold count_of at 1. rewrite lookup_fmap, Hlk.
  rewrite decide_True by exact Hin. simpl. apply clamp_id, clamp_range.
Qed.

(** X2: the result depends on the values of the ten labels only: two
    dictionaries that agree on them normalise to the same counts, whatever
    other keys they hold. *)
Theorem normalize_ignores_other_keys (m1 m2 : gmap string json) :
  Forall (fun k => m1 !! k = m2 !! k) LINES ->
  normalize_counts_map (JDict m1) = normalize_counts_map (JDict m2).
Proof.
  intros Hagree.
  destruct (normalize_counts_map_dict m1) as (o1 & -> & H1).
  destruct (normalize_counts_map_dict m2) as (o2 & -> & H2).
  f_equal. apply map_eq. intros k. rewrite H1, H2.
  destruct (decide (k ∈ LINES)) as [Hin|Hin]; [|reflexivity].
  rewrite Forall_forall in Hagree. unfold count_of. by rewrite (Hagree k Hin).
Qed.

Lemma normalize_ignores_other_keys_witness :
  normalize_counts_map (JDict {[ "celulite" := JInt 4; "linhas" := JList [] ]})
    = normalize_counts_map (JDict {[ "celulite" := JInt 4 ]}).
Proof.
  apply normalize_ignores_other_keys.
  repeat (constructor; [vm_compute; reflexivity|]). constructor.
Defined.

(** X3: a label that the input lacks is counted 0, and a label bound to an
    integer [z] is counted [max(0, min(10, z))]. *)
Theorem normalize_missing_and_integer (m : gmap string json) (k : string) :
  k ∈ LINES ->
  exists out : gmap string Z,
    normalize_counts_map (JDict m) = Ok out /\
    (m !! k = None -> out !! k = Some 0) /\
    (forall z, m !! k = Some (JInt z) -> out !! k = Some (Z.max 0 (Z.min 10 z))).
Proof.
  intros Hk. destruct (normalize_counts_map_dict m) as (out & Hrun & Hlk).
  exists out. split; [exact Hrun|]. rewrite Hlk, decide_True by exact Hk.
  unfold count_of. split.
  - intros ->. reflexivity.
  - intros z ->. reflexivity.
Qed.

Lemma normalize_missing_and_integer_witness :
  exists out : gmap string Z,
    normalize_counts_map (JDict {[ "celulite" := JInt 12 ]}) = Ok out /\
    out !! "hepatite" = Some 0 /\ out !! "celulite" = Some 10.
Proof.
  set (m := {[ "celulite" := JInt 12 ]} : gmap string json).
  destruct (normalize_missing_and_integer m "hepatite") as (out & Hrun & Hmiss & _);
    [set_solver|].
  destruct (normalize_missing_and_integer m "celulite") as (out' & Hrun' & _ & Hint);
    [set_solver|].
  assert (out' = out) as -> by congruence.
  exists out. split; [exact Hrun|]. split.
  - apply Hmiss. reflexivity.
  - apply (Hint 12). reflexivity.
Defined.

(** On a value that is not a dictionary normalisation raises
    [AttributeError]: [raw.get] does not exist. *)
Lemma normalize_non_dict_raises (v : json) :
  is_dict v = false -> normalize_counts_map v = Raise AttributeError.
Proof. destruct v; intros H; try discriminate H; reflexivity. Qed.

(** ** Parsing of the reply *)

Lemma append_nil_r (s : string) : s ++ "" = s.
Proof.
  induction s as [|c r IH]; [reflexivity|].
  change (String c (r ++ "") = String c r). by rewrite IH.
Qed.

Lemma append_assoc (s t u : string) : (s ++ t) ++ u = s ++ (t ++ u).
Proof.
  induction s as [|c r IH]; [reflexivity|].
  change (String c ((r ++ t) ++ u) = String c (r ++ (t ++ u))). by rewrite IH.
Qed.

Lemma parse_json_safely_some (t : string) :
  parse_json_safely (Some t) =
    match Json.loads (cleaned t) with
    | Ok v => Ok v
    | Raise _ =>
        match Str.search_braces (cleaned t) with
        | Some m => match Json.loads m with
                    | Ok v => Ok v
                    | Raise _ => Ok (JDict ∅)
                    end
        | None => Ok (JDict ∅)
        end
    end.
Proof. apply parse_json_safely_cases. Qed.

Lemma parse_json_safely_returns (text : option string) :
  exists v, parse_json_safely text = Ok v.
Proof.
  rewrite parse_json_safely_cases.
  destruct (Json.loads _); [by eexists|].
  destruct (Str.search_braces _); [|by eexists].
  destruct (Json.loads _); by eexists.
Qed.

Lemma prefix_nil (s : string) : String.prefix "" s = true.
Proof. destruct s; reflexivity. Qed.

Lemma prefix_head_false (a c : ascii) (old r : string) :
  Ascii.eqb c a = false -> String.prefix (String a old) (String c r) = false.
Proof.
  intros H. simpl. destruct (ascii_dec a c) as [->|Hne]; [|reflexivity].
  by rewrite Ascii.eqb_refl in H.
Qed.

(** Replacing a pattern leaves alone a text in which its first character
    does not occur. *)
Lemma replace_free_app (a : ascii) (old new s t : string) :
  free_of a s = true ->
  Str.replace_from (String a old) new 0 (s ++ t)
    = s ++ Str.replace_from (String a old) new 0 t.
Proof.
  induction s as [|c r IH]; intros Hf; [reflexivity|].
  cbn [free_of] in Hf. apply andb_prop in Hf as [Hc Hr]. apply negb_true_iff in Hc.
  change (String c r ++ t) with (String c (r ++ t)).
  cbn [Str.replace_from]. rewrite (prefix_head_false a c old (r ++ t) Hc).
  rewrite (IH Hr). reflexivity.
Qed.

Lemma replace_free (a : ascii) (old new s : string) :
  free_of a s = true -> Str.replace (String a old) new s = s.
Proof.
  intros Hf. unfold Str.replace. rewrite <- (append_nil_r s) at 1.
  rewrite (replace_free_app a old new s "" Hf). simpl. apply append_nil_r.
Qed.

Lemma free_of_lstrip a s : free_of a s = true -> free_of a (Str.lstrip s) = true.
Proof.
  induction s as [|c r IH]; [done|]. intros Hf. cbn [Str.lstrip].
  destruct (Str.is_space c); [|exact Hf].
  cbn [free_of] in Hf. apply andb_prop in Hf as [_ Hr]. by apply IH.
Qed.

Lemma free_of_rstrip a s : free_of a s = true -> free_of a (Str.rstrip s) = true.
Proof.
  induction s as [|c r IH]; [done|]. intros Hf.
  cbn [free_of] in Hf. apply andb_prop in Hf as [Hc Hr].
  rewrite rstrip_cons. specialize (IH Hr).
  destruct (Str.rstrip r) as [|c' r'].
  - destruct (Str.is_space c); [reflexivity|]. cbn [free_of]. by rewrite Hc.
  - cbn [free_of] in *. by rewrite Hc, IH.
Qed.

Lemma free_of_strip a s : free_of a s = true -> free_of a (Str.strip s) = true.
Proof. intros H. unfold Str.strip. by apply free_of_rstrip, free_of_lstrip. Qed.

(** A text that ends in a character that is not white space is its own
    right strip. *)
Lemma rstrip_app_last (s : string) (c : ascii) :
  Str.is_space c = false -> Str.rstrip (s ++ String c "") = s ++ String c "".
Proof.
  intros Hc. induction s as [|a r IH].
  - simpl. by rewrite Hc.
  - change (String a r ++ String c "") with (String a (r ++ String c "")).
    rewrite rstrip_cons, IH. destruct r; reflexivity.
Qed.

Lemma cleaned_free (t : string) :
  free_of "`" t = true -> cleaned t = Str.strip t.
Proof.
  intros Hf. unfold cleaned, fence, fence_json.
  rewrite (replace_free "`" "``json" "" (Str.strip t)) by (by apply free_of_strip).
  rewrite (replace_free "`" "``" "" (Str.strip t)) by (by apply free_of_strip).
  apply strip_idemp.
Qed.

Lemma cleaned_fenced (t : string) :
  free_of "`" t = true -> cleaned (fence_json ++ t ++ fence) = Str.strip t.
Proof.
  intros Hf. unfold cleaned.
  assert (Hs : Str.strip (fence_json ++ t ++ fence) = fence_json ++ t ++ fence).
  { unfold Str.strip, fence_json, fence.
    change (Str.lstrip ("```json" ++ t ++ "```")) with ("```json" ++ t ++ "```").
    replace ("```json" ++ t ++ "```") with (("```json" ++ t ++ "``") ++ "`").
    - apply rstrip_app_last. reflexivity.
    - rewrite !append_assoc. reflexivity. }
  rewrite Hs.
  assert (H1 : Str.replace fence_json "" (fence_json ++ t ++ fence) = t ++ fence).
  { unfold Str.replace, fence_json. simpl.
    change ("" ++ t ++ fence) with (t ++ fence).
    rewrite prefix_nil. change ("" ++ ?x) with x.
    rewrite (replace_free_app "`" "``json" "" t fence Hf).
    reflexivity. }
  rewrite H1.
  assert (H2 : Str.replace fence "" (t ++ fence) = t).
  { unfold Str.replace, fence at 1.
    rewrite (replace_free_app "`" "``" "" t fence Hf). change (t ++ "" = t).
    apply append_nil_r. }
  rewrite H2. reflexivity.
Qed.

(** X4: Markdown fences are transparent: a text without backquotes parses
    the same whether or not it is wrapped in [```json] and [```]. *)
Theorem parse_json_safely_fenced (t : string) :
  free_of "`" t = true ->
  parse_json_safely (Some (fence_json ++ t ++ fence)) = parse_json_safely (Some t).
Proof.
  intros Hf. rewrite !parse_json_safely_some.
  rewrite (cleaned_fenced t Hf), (cleaned_free t Hf). reflexivity.
Qed.

Lemma parse_json_safely_fenced_witness :
  parse_json_safely (Some (fence_json ++ " [1, 2] " ++ fence))
    = parse_json_safely (Some " [1, 2] ").
Proof. apply parse_json_safely_fenced. reflexivity. Defined.

Lemma search_braces_skip (pre s : string) :
  free_of "{" pre = true -> Str.search_braces (pre ++ s) = Str.search_braces s.
Proof.
  induction pre as [|c r IH]; intros Hf; [reflexivity|].
  cbn [free_of] in Hf. apply andb_prop in Hf as [Hc Hr]. apply negb_true_iff in Hc.
  change (String c r ++ s) with (String c (r ++ s)).
  cbn [Str.search_braces]. rewrite Hc. by apply IH.
Qed.

Lemma upto_last_free (c : ascii) (s : string) :
  free_of c s = true -> Str.upto_last c s = None.
Proof.
  induction s as [|a r IH]; intros Hf; [reflexivity|].
  cbn [free_of] in Hf. apply andb_prop in Hf as [Hc Hr]. apply negb_true_iff in Hc.
  cbn [Str.upto_last]. by rewrite (IH Hr), Hc.
Qed.

Lemma upto_last_app (c : ascii) (mid post : string) :
  free_of c post = true ->
  Str.upto_last c (mid ++ String c post) = Some (mid ++ String c "").
Proof.
  intros Hf. induction mid as [|a r IH].
  - simpl. by rewrite (upto_last_free c post Hf), Ascii.eqb_refl.
  - change (String a r ++ String c post) with (String a (r ++ String c post)).
    cbn [Str.upto_last]. rewrite IH. reflexivity.
Qed.

(** The brace pattern matches from the first opening brace to the last
    closing brace. *)
Lemma search_braces_span (pre mid post : string) :
  free_of "{" pre = true -> free_of "}" post = true ->
  Str.search_braces (pre ++ String "{" (mid ++ String "}" post))
    = Some (String "{" (mid ++ "}")).
Proof.
  intros Hpre Hpost. rewrite (search_braces_skip pre _ Hpre).
  cbn [Str.search_braces]. change (Ascii.eqb "{" "{") with true. cbv iota.
  rewrite (upto_last_app "}" mid post Hpost). reflexivity.
Qed.

(** X5: prose around a JSON object is ignored: when the cleaned text is some
    prose without an opening brace, then [{ ... }], then some prose without a
    closing brace, and the strict parse fails, the result is what the
    brace-delimited part decodes to, or [{}] when it does not decode. *)
Theorem parse_json_safely_embedded_object (t pre mid post : string) (e : exn) :
  cleaned t = pre ++ String "{" (mid ++ String "}" post) ->
  free_of "{" pre = true -> free_of "}" post = true ->
  Json.loads (cleaned t) = Raise e ->
  parse_json_safely (Some t)
    = match Json.loads (String "{" (mid ++ "}")) with
      | Ok v => Ok v
      | Raise _ => Ok (JDict ∅)
      end.
Proof.
  intros Hc Hpre Hpost Hfail. rewrite parse_json_safely_some.
  rewrite Hfail, Hc, (search_braces_span pre mid post Hpre Hpost). reflexivity.
Qed.

Lemma parse_json_safely_embedded_object_witness :
  parse_json_safely (Some "Sure: {} and {x} done.") = Ok (JDict ∅) /\
  parse_json_safely (Some "ok { } .") = Ok (JDict ∅).
Proof.
  split.
  - rewrite (parse_json_safely_embedded_object _ "Sure: " "} and {x" " done." JSONDecodeError);
      reflexivity.
  - rewrite (parse_json_safely_embedded_object _ "ok " " " " ." JSONDecodeError);
      reflexivity.
Defined.

(** X6: [gemini_generate_json] returns a dictionary whenever it returns, and
    it raises only what the call to the model raises. *)
Theorem gemini_generate_json_dict (resp : result (option string)) :
  match gemini_generate_json resp with
  | Ok r => is_dict r = true /\ exists t, resp = Ok t
  | Raise e => resp = Raise e
  end.
Proof.
  destruct resp as [t|e]; [|reflexivity].
  unfold gemini_generate_json. cbn [mbind result_bind].
  destruct (parse_json_safely_returns (Some (Str.strip (default "" t)))) as [data ->].
  cbn [mbind result_bind]. split; [|by eexists].
  destruct (is_dict data) eqn:E; [exact E | reflexivity].
Qed.

(** ** Geometry of the sprite *)

Lemma usable_region_value (h : Z) :
  0 <= h < 2 ^ 31 ->
  Sprite.usable_region h =
    Ok (if Sprite.degenerate (8 * h / 100, 92 * h / 100)
        then (0, h) else (8 * h / 100, 92 * h / 100)).
Proof.
  intros Hh. unfold Sprite.usable_region. rewrite trimmed_value by exact Hh.
  reflexivity.
Qed.

(** The layout, with the region and the start of the right crops spelled
    out. *)
Lemma layout_value (w h : Z) :
  0 <= w < 2 ^ 31 -> 0 <= h < 2 ^ 31 ->
  exists top bot x0 c,
    (if Sprite.degenerate (8 * h / 100, 92 * h / 100)
     then (0, h) else (8 * h / 100, 92 * h / 100)) = (top, bot) /\
    Sprite.center_raw w = Ok c /\ x0 = Z.min (w - 55 * w / 100) c /\
    465 * w / 1000 - 1 <= c <= 465 * w / 1000 /\ 0 <= c /\
    Sprite.build_right_only_sprite w h =
      Ok (let band_h := Sprite.band_height (bot - top) in
          Sprite.Layout top bot (bot - top) band_h
            ((fun i => let band := Sprite.band_box w top bot band_h i in
                       (band, Sprite.Box x0 0 w (Sprite.lower band - Sprite.upper band)))
               <$> Sprite.rows)).
Proof.
  intros Hw Hh.
  destruct (build_right_only_sprite_value w h Hw Hh) as (top & bot & x0 & Hu & Hx & Hb).
  destruct (center_x_value w Hw) as (c & Hraw & _ & Hcb & Hc0).
  destruct (right_x0_value w Hw) as (c' & Hraw' & Hx').
  assert (c' = c) as -> by congruence.
  rewrite usable_region_value in Hu by exact Hh. injection Hu as Hu.
  exists top, bot, x0, c. split; [exact Hu|]. split; [exact Hraw|].
  split; [congruence|]. split; [exact Hcb|]. split; [exact Hc0|]. exact Hb.
Qed.



(** X8: from a height of 10 pixels on, no band is empty: the first nine
    bands are [band_h >= 1] pixels high and the tenth takes the rounding
    remainder, between [band_h] and [band_h + 9] pixels. *)
Theorem bands_not_empty (w h : Z) :
  0 <= w < 2 ^ 31 -> 10 <= h < 2 ^ 31 ->
  exists lay,
    Sprite.build_right_only_sprite w h = Ok lay /\
    1 <= Sprite.band_h lay /\
    (forall (i : nat) b r, Sprite.tiles lay !! i = Some (b, r) ->
       ((i < 9)%nat -> Sprite.lower b - Sprite.upper b = Sprite.band_h lay) /\
       (i = 9%nat ->
          Sprite.band_h lay <= Sprite.lower b - Sprite.upper b <= Sprite.band_h lay + 9)).
Proof.
  intros Hw Hh.
  destruct (layout_value w h Hw) as (top & bot & x0 & c & Hu & _ & _ & _ & _ & Hb); [lia|].
  eexists. split; [exact Hb|].
  cbn [Sprite.tiles Sprite.top Sprite.bot Sprite.band_h].
  assert (Hreg : 10 <= bot - top).
  { destruct (Sprite.degenerate _) eqn:E; injection Hu as <- <-; [lia|].
    unfold Sprite.degenerate in E. cbn [fst snd] in E. apply Z.leb_gt in E. lia. }
  assert (Hbh : Sprite.band_height (bot - top) = (bot - top) / 10)
    by (unfold Sprite.band_height; div_lia).
  rewrite Hbh. clear Hu Hb. split; [div_lia|].
  intros i b r Hi.
  do 9 (destruct i as [|i]; [injection Hi as <- _; cbn; split; [intros _; lia | lia]|]).
  destruct i as [|i]; [|discriminate Hi].
  injection Hi as <- _. cbn. split; [lia|]. intros _. div_lia.
Qed.

Lemma bands_not_empty_witness :
  exists lay,
    Sprite.build_right_only_sprite 640 10 = Ok lay /\ 1 <= Sprite.band_h lay.
Proof.
  destruct (bands_not_empty 640 10) as (lay & Hb & H1 & _); [lia..|].
  exists lay. split; [exact Hb | exact H1].
Defined.



(** X10: the full height is taken exactly for the heights 0 to 11 and 13: a
    height of 12 keeps its trimmed region of 11 rows, a height of 13 does not
    (its trimmed region has 10). *)
Theorem fallback_heights (h : Z) :
  0 <= h < 2 ^ 31 ->
  (Sprite.usable_region h = Ok (0, h) <-> h <= 11 \/ h = 13).
Proof.
  intros Hh. rewrite usable_region_value by exact Hh.
  pose proof (degenerate_iff h Hh) as Hd.
  destruct (Sprite.degenerate _) eqn:E.
  - split; [intros _; by apply Hd | reflexivity].
  - split.
    + intros [= H1 H2]. change (2 ^ 31) with 2147483648 in Hh.
      left. revert H2. div_lia.
    + intros Hs. apply Hd in Hs. discriminate Hs.
Qed.

Lemma fallback_heights_witness :
  Sprite.usable_region 13 = Ok (0, 13) /\ Sprite.usable_region 12 <> Ok (0, 12).
Proof.
  split.
  - apply (fallback_heights 13); lia.
  - intros H. apply (fallback_heights 12) in H; lia.
Defined.

(** X11: the usable region keeps at least 84% of the height, less one
    pixel, and whenever margins are trimmed more than 10 rows remain. *)
Theorem usable_region_bounds (h : Z) :
  0 <= h < 2 ^ 31 ->
  exists top bot,
    Sprite.usable_region h = Ok (top, bot) /\
    0 <= top <= bot /\ bot <= h /\
    84 * h / 100 - 1 <= bot - top /\
    (bot - top = h \/ 10 < bot - top).
Proof.
  intros Hh. rewrite usable_region_value by exact Hh.
  change (2 ^ 31) with 2147483648 in Hh.
  destruct (Sprite.degenerate _) eqn:E.
  - exists 0, h. split; [reflexivity|]. repeat split; try lia; div_lia.
  - unfold Sprite.degenerate in E. cbn [fst snd] in E. apply Z.leb_gt in E.
    exists (8 * h / 100), (92 * h / 100). split; [reflexivity|].
    repeat split; try lia; div_lia.
Qed.

Lemma usable_region_bounds_witness :
  exists top bot, Sprite.usable_region 800 = Ok (top, bot) /\ 84 * 800 / 100 - 1 <= bot - top.
Proof.
  destruct (usable_region_bounds 800) as (top & bot & Hu & _ & _ & H84 & _); [lia|].
  exists top, bot. split; [exact Hu | exact H84].
Defined.



(** X13: the ten tiles are pasted inside the canvas, to the right of the
    label column, one under the other without gap or overlap, and they fill
    the canvas from its top to its bottom; each row number is drawn inside
    the label column, within the rows of its tile. *)
Theorem canvas_layout (i : Z) :
  0 <= i < 10 ->
  let b := paste_box i in
  Sprite.left b = LABEL_W /\ Sprite.right b = fst canvas_size /\
  0 <= Sprite.upper b /\ Sprite.lower b <= snd canvas_size /\
  Sprite.lower b - Sprite.upper b = SPRITE_H /\
  Sprite.right b - Sprite.left b = SPRITE_W /\
  Sprite.lower b = Sprite.upper (paste_box (i + 1)) /\
  Sprite.upper (paste_box 0) = 0 /\ Sprite.lower (paste_box 9) = snd canvas_size /\
  0 <= fst (label_pos i) < LABEL_W /\
  Sprite.upper b <= snd (label_pos i) < Sprite.lower b.
Proof.
  intros Hi. unfold paste_box, label_pos, canvas_size, tile_size, y_off,
    LABEL_W, SPRITE_W, SPRITE_H. cbn [Sprite.left Sprite.right Sprite.upper Sprite.lower fst snd].
  lia.
Qed.

Lemma canvas_layout_witness :
  Sprite.lower (paste_box 3) - Sprite.upper (paste_box 3) = SPRITE_H /\
  Sprite.lower (paste_box 3) = Sprite.upper (paste_box (3 + 1)).
Proof.
  destruct (canvas_layout 3) as (_ & _ & _ & _ & Hh & _ & Hn & _); [lia|].
  split; [exact Hh | exact Hn].
Defined.

(** ** The request handler *)

Lemma io_lift_inv {A : Type} (r : result A) fs a fs' :
  io_lift r fs = (Ok a, fs') -> r = Ok a /\ fs' = fs.
Proof. unfold io_lift. intros [= -> ->]. done. Qed.

Lemma save_crops_folder (wd : world) (rows : list Z) : forall fs l fs',
  save_crops wd rows fs = (Ok l, fs') ->
  fs' = list_to_set (crop_path wd <$> rows) ∪ fs.
Proof.
  induction rows as [|i rows IH]; intros fs l fs' H.
  - cbn in H. injection H as _ <-. cbn. by rewrite union_empty_l_L.
  - cbn [save_crops] in H.
    apply io_bind_ok in H as (? & f1 & H1 & H). apply io_lift_inv in H1 as [_ ->].
    apply io_bind_ok in H as (? & f2 & H2 & H). injection H2 as _ <-.
    apply io_bind_ok in H as (rest & f3 & H3 & H). injection H as _ <-.
    rewrite (IH _ _ _ H3). cbn [fmap list_fmap list_to_set foldr].
    apply set_eq. intros y. rewrite !elem_of_union. tauto.
Qed.

Lemma build_sprite_files_folder (wd : world) (w h : Z) fs sc fs' :
  build_sprite_files wd w h fs = (Ok sc, fs') ->
  fs' = {[ sprite_path wd ]} ∪ (list_to_set (crop_path wd <$> Sprite.rows) ∪ fs).
Proof.
  unfold build_sprite_files. intros H.
  apply io_bind_ok in H as (? & f1 & H1 & H). apply io_lift_inv in H1 as [_ ->].
  apply io_bind_ok in H as (crops & f2 & H2 & H).
  apply io_bind_ok in H as (? & f3 & H3 & H). injection H3 as _ <-.
  injection H as _ <-. by rewrite (save_crops_folder _ _ _ _ _ H2).
Qed.

Lemma cleanup_exact (wd : world) (ps : list string) : forall fs,
  Forall (fun p => remove_fails wd p = false) ps ->
  cleanup wd ps fs = (Ok (), fs ∖ list_to_set ps).
Proof.
  induction ps as [|p ps IH]; intros fs Hf.
  - cbn. f_equal. apply set_eq. intros y. rewrite elem_of_difference, elem_of_empty. tauto.
  - apply Forall_cons in Hf as [Hp Hps]. cbn [cleanup].
    unfold mbind, io_mbind, io_bind, io_try, os_remove. rewrite Hp. cbn [orb].
    destruct (bool_decide (p ∈ fs)) eqn:Hin; cbn [negb io_ret].
    + rewrite (IH _ Hps). f_equal. apply set_eq. intros y.
      cbn [list_to_set foldr]. rewrite !elem_of_difference, elem_of_union. tauto.
    + apply bool_decide_eq_false in Hin. rewrite (IH _ Hps). f_equal.
      apply set_eq. intros y. cbn [list_to_set foldr].
      rewrite !elem_of_difference, elem_of_union, elem_of_singleton.
      split; [|tauto]. intros [Hy Hn]. split; [exact Hy|]. intros [->|?]; tauto.
Qed.

(** What a 200 response tells about the request. *)
Lemma api_contar_200_inv (wd : world) (image : option string) fs counts raw fs' :
  api_contar wd image fs = (Ok (Resp200 counts raw), fs') ->
  exists size contagem f,
    open_image wd = Ok size /\ upload_orig wd = Ok () /\ upload_sprite wd = Ok () /\
    gemini_generate_json (reply wd) = Ok raw /\
    dict_get raw "contagem" (JDict ∅) = Ok contagem /\
    normalize_counts_map contagem = Ok counts /\
    f = {[ sprite_path wd ]} ∪
          (list_to_set (crop_path wd <$> Sprite.rows) ∪ ({[ saved_path wd ]} ∪ fs)) /\
    cleanup wd (derived wd) f = (Ok (), fs').
Proof.
  intros H. destruct image as [[|c name]|]; try discriminate H.
  cbn [api_contar] in H. unfold io_try in H.
  destruct (api_contar_body wd fs) as [[r|e] fs1] eqn:Hb; [|discriminate H].
  injection H as -> ->. unfold api_contar_body in Hb.
  apply io_bind_ok in Hb as (? & f1 & H1 & Hb). injection H1 as _ <-.
  apply io_bind_ok in Hb as (size & f2 & H2 & Hb). apply io_lift_inv in H2 as [H2 ->].
  apply io_bind_ok in Hb as (sc & f3 & Hsc & Hb).
  apply io_bind_ok in Hb as ([] & f4 & H4 & Hb). apply io_lift_inv in H4 as [H4 ->].
  apply io_bind_ok in Hb as ([] & f5 & H5 & Hb). apply io_lift_inv in H5 as [H5 ->].
  apply io_bind_ok in Hb as (result & f6 & H6 & Hb). apply io_lift_inv in H6 as [H6 ->].
  apply io_bind_ok in Hb as (contagem & f7 & H7 & Hb). apply io_lift_inv in H7 as [H7 ->].
  apply io_bind_ok in Hb as (cnt & f8 & H8 & Hb). apply io_lift_inv in H8 as [H8 ->].
  apply io_bind_ok in Hb as ([] & f9 & Hcl & Hb).
  injection Hb as -> -> ->.
  pose proof (build_sprite_files_folder _ _ _ _ _ _ Hsc) as ->.
  apply build_sprite_files_paths in Hsc as ->. cbn [fst snd] in Hcl.
  eexists size, contagem, _. repeat (split; [eassumption|]).
  split; [reflexivity | exact Hcl].
Qed.

Lemma api_contar_body_ok (wd : world) fs r fs' :
  api_contar_body wd fs = (Ok r, fs') -> exists counts raw, r = Resp200 counts raw.
Proof.
  unfold api_contar_body. intros Hb.
  repeat (apply io_bind_ok in Hb as (? & ? & _ & Hb)).
  injection Hb as <- _. eauto.
Qed.


Lemma gemini_generate_json_is_dict (resp : result (option string)) (r : json) :
  gemini_generate_json resp = Ok r -> is_dict r = true.
Proof.
  destruct resp as [t|e]; [|discriminate].
  unfold gemini_generate_json. cbn [mbind result_bind].
  destruct (parse_json_safely_returns (Some (Str.strip (default "" t)))) as [data ->].
  cbn [mbind result_bind]. intros [= <-].
  destruct (is_dict data) eqn:E; [exact E | reflexivity].
Qed.

(** X15: a 200 response carries counts that satisfy the schema and the
    dictionary they were read from: [raw_debug] is the dictionary that
    [gemini_generate_json] returned, its [contagem] entry ([{}] when it has
    none) is a dictionary, and [counts] is the normalisation of that entry. *)
Theorem api_contar_200_counts (wd : world) (image : option string) fs counts raw fs' :
  api_contar wd image fs = (Ok (Resp200 counts raw), fs') ->
  gemini_generate_json (reply wd) = Ok raw /\
  is_dict raw = true /\
  (exists contagem : gmap string json,
     dict_get raw "contagem" (JDict ∅) = Ok (JDict contagem) /\
     normalize_counts_map (JDict contagem) = Ok counts) /\
  dom counts = list_to_set LINES /\
  map_Forall (fun _ v => 0 <= v <= 10) counts.
Proof.
  intros H.
  destruct (api_contar_200_inv _ _ _ _ _ _ H)
    as (size & contagem & f & _ & _ & _ & Hg & Hget & Hn & _).
  split; [exact Hg|]. split; [by eapply gemini_generate_json_is_dict|].
  assert (Hc : is_dict contagem = true).
  { destruct (is_dict contagem) eqn:E; [reflexivity|].
    rewrite (normalize_non_dict_raises _ E) in Hn. discriminate Hn. }
  destruct contagem as [| | | | | |c]; try discriminate Hc.
  split; [by exists c|].
  destruct (normalize_counts_map_dict c) as (out & Hrun & Hlk).
  assert (out = counts) as -> by congruence.
  split.
  - apply set_eq. intros k. rewrite elem_of_dom, elem_of_list_to_set, Hlk.
    destruct (decide (k ∈ LINES)) as [Hin|Hin].
    + split; [done | by eexists].
    + split; [by intros [? ?] | done].
  - intros k v Hk. rewrite Hlk in Hk.
    destruct (decide (k ∈ LINES)); [|done]. injection Hk as <-. apply clamp_range.
Qed.

Lemma api_contar_200_counts_witness :
  gemini_generate_json (reply good_world)
    = Ok (JDict {[ "contagem" := JDict {[ "aerosaculite" := JInt 3 ]} ]}) /\
  dom scenario_counts = list_to_set LINES.
Proof.
  destruct (api_contar_200_counts good_world (Some "abaco.jpg") ∅ scenario_counts
              (JDict {[ "contagem" := JDict {[ "aerosaculite" := JInt 3 ]} ]}) ∅)
    as (Hg & _ & _ & Hdom & _); [vm_compute; reflexivity|].
  split; [exact Hg | exact Hdom].
Defined.

Lemma api_contar_classify (wd : world) (c : ascii) (name : string) fs resp fs' :
  api_contar wd (Some (String c name)) fs = (Ok resp, fs') ->
  (exists counts raw, resp = Resp200 counts raw) \/ (exists e, resp = Resp500 e).
Proof.
  cbn [api_contar]. unfold io_try.
  destruct (api_contar_body wd fs) as [[r|e] fs1] eqn:Hb.
  - intros [= <- _]. left. by eapply api_contar_body_ok.
  - intros [= <- _]. right. by eexists.
Qed.

(** X16: when no removal fails, a successful request leaves the folder as it
    was, less the paths it used: every derived image is gone, and nothing
    else is touched.  With fresh names the folder is exactly restored. *)
Theorem api_contar_success_restores_folder
    (wd : world) (image : option string) fs counts raw fs' :
  api_contar wd image fs = (Ok (Resp200 counts raw), fs') ->
  Forall (fun p => remove_fails wd p = false) (derived wd) ->
  fs' = fs ∖ list_to_set (derived wd) /\
  (Forall (fun p => p ∉ fs) (derived wd) -> fs' = fs).
Proof.
  intros H Hf.
  destruct (api_contar_200_inv _ _ _ _ _ _ H)
    as (size & contagem & f & _ & _ & _ & _ & _ & _ & -> & Hcl).
  rewrite (cleanup_exact wd (derived wd) _ Hf) in Hcl. injection Hcl as <-.
  assert (He : ({[ sprite_path wd ]} ∪
      (list_to_set (crop_path wd <$> Sprite.rows) ∪ ({[ saved_path wd ]} ∪ fs)))
      ∖ list_to_set (derived wd) = fs ∖ list_to_set (derived wd)).
  { apply set_eq. intros y. unfold derived. cbn [list_to_set foldr].
    rewrite !elem_of_difference, !elem_of_union. tauto. }
  split; [exact He|]. intros Hfresh.
  transitivity (fs ∖ list_to_set (derived wd)); [exact He|].
  apply set_eq. intros y. rewrite elem_of_difference, elem_of_list_to_set.
  rewrite Forall_forall in Hfresh. split; [tauto|].
  intros Hy. split; [exact Hy|]. intros Hd. by apply (Hfresh y Hd).
Qed.

Lemma api_contar_success_restores_folder_witness :
  ({[ "uploads/old.jpg" ]} : gset string)
    = {[ "uploads/old.jpg" ]} ∖ list_to_set (derived good_world).
Proof.
  refine (proj1 (api_contar_success_restores_folder good_world (Some "abaco.jpg")
            {[ "uploads/old.jpg" ]} scenario_counts
            (JDict {[ "contagem" := JDict {[ "aerosaculite" := JInt 3 ]} ]})
            {[ "uploads/old.jpg" ]} _ _)).
  - vm_compute. reflexivity.
  - repeat constructor.
Defined.

(** X17: the cleanup is best effort file by file: on the success path a
    derived image whose own removal does not fail is gone, even when the
    removal of another one failed. *)
Theorem api_contar_best_effort_cleanup
    (wd : world) (name : string) fs counts raw fs' (p : string) :
  api_contar wd (Some name) fs = (Ok (Resp200 counts raw), fs') ->
  p ∈ derived wd -> remove_fails wd p = false -> p ∉ fs'.
Proof. intros H Hp Hf. by eapply api_contar_success_cleans. Qed.

Lemma api_contar_best_effort_cleanup_witness :
  "uploads/1a2b3c4d_abaco.jpg" ∉ ({[ "uploads/sprite_right_5e6f7a8b.jpg" ]} : gset string).
Proof.
  apply (api_contar_best_effort_cleanup locked_world "abaco.jpg" ∅ scenario_counts
           (JDict {[ "contagem" := JDict {[ "aerosaculite" := JInt 3 ]} ]})
           {[ "uploads/sprite_right_5e6f7a8b.jpg" ]}).
  - vm_compute. reflexivity.
  - apply list_elem_of_here.
  - reflexivity.
Defined.



(** X19: a reply whose [contagem] entry is not an object (a list, a number, a
    string, [null]) never yields a 200: normalisation raises and the request
    is answered 500. *)
Theorem api_contar_contagem_not_dict
    (wd : world) (c : ascii) (name : string) fs raw v resp fs' :
  gemini_generate_json (reply wd) = Ok raw ->
  dict_get raw "contagem" (JDict ∅) = Ok v ->
  is_dict v = false ->
  api_contar wd (Some (String c name)) fs = (Ok resp, fs') ->
  exists e, resp = Resp500 e.
Proof.
  intros Hg Hget Hv H.
  destruct (api_contar_classify _ _ _ _ _ _ H) as [(counts & r & ->)|He]; [|exact He].
  destruct (api_contar_200_inv _ _ _ _ _ _ H)
    as (size & contagem & f & _ & _ & _ & Hg' & Hget' & Hn & _).
  assert (r = raw) as -> by congruence.
  assert (contagem = v) as -> by congruence.
  rewrite (normalize_non_dict_raises v Hv) in Hn. discriminate Hn.
Qed.

Lemma api_contar_contagem_not_dict_witness :
  exists e, Resp500 AttributeError = Resp500 e.
Proof.
  apply (api_contar_contagem_not_dict list_reply_world "a" "baco.jpg" ∅
           (JDict {[ "contagem" := JList [JInt 3] ]}) (JList [JInt 3])
           (Resp500 AttributeError) (list_to_set (derived list_reply_world))).
  - vm_compute. reflexivity.
  - vm_compute. reflexivity.
  - reflexivity.
  - vm_compute. reflexivity.
Defined.




(** ** The zoom *)

(** [int(n * c)] for a constant [c] of 53 bits below 2^21: the bracket of
    [int_mul_bounds], for the larger exponents. *)
Lemma int_mul_bounds_wide (n : Z) (mc : positive) (ec : Z) :
  0 < n < 2 ^ 31 -> 2 ^ 52 <= Z.pos mc < 2 ^ 53 -> -64 <= ec <= -33 ->
  exists r, Sprite.int_mul n (S754_finite false mc ec) = Ok r /\
    n * Z.pos mc / 2 ^ (- ec) <= r /\ r * 2 ^ (- ec) <= n * (Z.pos mc + 2).
Proof.
  intros Hn Hmc Hec. destruct n as [|p|p]; try lia.
  pose proof (digits2_pos_bounds p) as [Plo Phi].
  set (d := Z.pos (digits2_pos p)) in *.
  assert (Hd : 1 <= d <= 31).
  { split; [unfold d; lia|].
    assert (d - 1 < 31); [|lia]. apply (Z.pow_lt_mono_r_iff 2); lia. }
  destruct (53 - d) as [|k|k] eqn:Ek; try lia.
  destruct (of_int_small p k) as [Hf Hdm]; [fold d; lia|].
  unfold Sprite.int_mul. rewrite Hf. simpl mbind.
  unfold Float.mul, SFmul, Float.prec, Float.emax. cbn [xorb].
  set (m1 := Pos.iter xO p k) in *.
  pose proof (iter_xO_value k p) as Hm1. fold m1 in Hm1.
  pose proof (digits2_pos_bounds m1) as [M1lo M1hi]. rewrite Hdm in M1lo, M1hi.
  assert (P2k : 0 < 2 ^ Z.pos k) by (apply Z.pow_pos_nonneg; lia).
  assert (PC : 0 < 2 ^ (- ec)) by (apply Z.pow_pos_nonneg; lia).
  assert (Hprod : 2 ^ 104 <= Z.pos (m1 * mc) < 2 ^ 106).
  { rewrite Pos2Z.inj_mul.
    change (2 ^ 104) with (2 ^ 52 * 2 ^ 52). change (2 ^ 106) with (2 ^ 53 * 2 ^ 53).
    change (53 - 1) with 52 in M1lo. split; nia. }
  assert (Ha : exists a, (a = 52 \/ a = 53) /\ Z.pos (digits2_pos (m1 * mc)) = 53 + a).
  { destruct (Z.lt_ge_cases (Z.pos (m1 * mc)) (2 ^ 105)).
    - exists 52. split; [by left|]. apply digits2_pos_unique.
      change (53 + 52 - 1) with 104. change (53 + 52) with 105. lia.
    - exists 53. split; [by right|]. apply digits2_pos_unique.
      change (53 + 53 - 1) with 105. change (53 + 53) with 106. lia. }
  destruct Ha as (a & Ha & Hda).
  destruct (binary_round_aux_trunc (m1 * mc) (- Z.pos k + ec) a Hda)
    as (m & e & mr & Hbr & Hmr & Htr); [lia | lia | lia |].
  rewrite Hbr. cbn [Float.to_int]. exists (Float.trunc_pos m e).
  split; [reflexivity|]. rewrite Htr. clear Hbr Htr.
  set (t := - (- Z.pos k + ec + a)) in *.
  assert (Ht : 0 < t) by (unfold t; lia).
  assert (PA : 0 < 2 ^ a) by (apply Z.pow_pos_nonneg; lia).
  assert (PT : 0 < 2 ^ t) by (apply Z.pow_pos_nonneg; lia).
  assert (Hat : 2 ^ a * 2 ^ t = 2 ^ Z.pos k * 2 ^ (- ec)).
  { rewrite <- !Z.pow_add_r by lia. f_equal. unfold t. lia. }
  assert (Ha53 : 2 ^ a <= 2 ^ Z.pos k * (2 * Z.pos p)).
  { assert (2 ^ a <= 2 ^ 53) by (apply Z.pow_le_mono_r; lia).
    assert (2 ^ 53 = 2 ^ Z.pos k * (2 * 2 ^ (d - 1))).
    { rewrite <- (Z.pow_succ_r 2 (d - 1)), <- Z.pow_add_r by lia. f_equal. lia. }
    nia. }
  set (q := Z.pos (m1 * mc) / 2 ^ a) in *.
  assert (Hq : q * 2 ^ a <= Z.pos (m1 * mc) < (q + 1) * 2 ^ a).
  { unfold q. pose proof (Z.div_mod (Z.pos (m1 * mc)) (2 ^ a)).
    pose proof (Z.mod_pos_bound (Z.pos (m1 * mc)) (2 ^ a) PA). lia. }
  assert (Hexact : Z.pos p * Z.pos mc / 2 ^ (- ec) = q / 2 ^ t).
  { unfold q. rewrite Z.div_div, Hat by lia.
    rewrite Pos2Z.inj_mul, Hm1.
    replace (Z.pos p * 2 ^ Z.pos k * Z.pos mc) with (Z.pos p * Z.pos mc * 2 ^ Z.pos k) by lia.
    rewrite (Z.mul_comm (2 ^ Z.pos k)).
    rewrite Z.div_mul_cancel_r by lia. reflexivity. }
  assert (Hup : (q + 1) / 2 ^ t * 2 ^ (- ec) <= Z.pos p * (Z.pos mc + 2)).
  { pose proof (Z.mul_div_le (q + 1) (2 ^ t) PT) as Hle.
    rewrite Pos2Z.inj_mul, Hm1 in Hq.
    apply (Z.mul_le_mono_pos_r _ _ (2 ^ Z.pos k)); [lia|].
    set (R := (q + 1) / 2 ^ t) in *.
    assert (S1 : R * 2 ^ t * 2 ^ a <= (q + 1) * 2 ^ a)
      by (apply Z.mul_le_mono_nonneg_r; lia).
    assert (S2 : R * (2 ^ a * 2 ^ t) = R * (2 ^ Z.pos k * 2 ^ (- ec)))
      by (rewrite Hat; reflexivity).
    lia. }
  destruct Hmr as [-> | ->].
  - split; [lia|].
    assert (q / 2 ^ t <= (q + 1) / 2 ^ t) by (apply Z.div_le_mono; lia).
    assert (q / 2 ^ t * 2 ^ (- ec) <= (q + 1) / 2 ^ t * 2 ^ (- ec))
      by (apply Z.mul_le_mono_nonneg_r; lia).
    lia.
  - split; [|exact Hup]. rewrite Hexact. apply Z.div_le_mono; lia.
Qed.

Lemma RIGHT_ZOOM_value : RIGHT_ZOOM = S754_finite false 7205759403792794 (-52).
Proof. reflexivity. Qed.

(** [int(n * 1.6)] is the floor of 8/5 of [n]. *)
Lemma int_mul_RIGHT_ZOOM (n : Z) :
  0 <= n < 2 ^ 31 -> Sprite.int_mul n RIGHT_ZOOM = Ok (8 * n / 5).
Proof.
  intros Hn. rewrite RIGHT_ZOOM_value.
  destruct (Z.eq_dec n 0) as [->|Hz]; [reflexivity|].
  destruct (int_mul_bounds_wide n 7205759403792794 (-52)) as (r & -> & Lo & Hi); [lia..|].
  f_equal. change (2 ^ (- -52)) with 4503599627370496 in *.
  change (2 ^ 31) with 2147483648 in Hn. div_lia.
Qed.

(** X21: the zoom resizes a crop of [cw] by [ch] pixels to [8 * cw / 5] by
    [8 * ch / 5] pixels (integer division): it never shrinks a side, and a
    side of at least one pixel keeps at least one pixel. *)
Theorem zoom_size_value (cw ch : Z) :
  0 <= cw < 2 ^ 31 -> 0 <= ch < 2 ^ 31 ->
  zoom_size cw ch = Ok (8 * cw / 5, 8 * ch / 5) /\
  cw <= 8 * cw / 5 /\ ch <= 8 * ch / 5.
Proof.
  intros Hw Hh. split.
  - unfold zoom_size.
    change (Float.of_int 1) with (Ok (A := spec_float) (S754_finite false 4503599627370496 (-52))).
    cbn [mbind result_bind].
    change (SFeqb RIGHT_ZOOM (S754_finite false 4503599627370496 (-52))) with false.
    cbv iota. rewrite !int_mul_RIGHT_ZOOM by assumption. reflexivity.
  - change (2 ^ 31) with 2147483648 in *. split; div_lia.
Qed.

Lemma zoom_size_value_witness :
  zoom_size 550 67 = Ok (880, 107).
Proof.
  destruct (zoom_size_value 550 67) as [H _]; [lia..|]. exact H.
Defined.
